(** * zero_shot_replication: the runner and the local Wizard model

    A shallow embedding of [src/zero_shot_replication/runner.py] and of
    [src/zero_shot_replication/model/hugging_face_model/wizard_model.py],
    with the properties of the harness stated over it. *)

From Stdlib Require QArith.
From stdpp Require Import gmap strings list.

(** A Python float is only carried around, never computed with: the decimal
    that its literal denotes stands for it. *)
Abbreviation float := QArith_base.Q.

(** ** Python values that the harness handles *)

(** An exception instance, as caught by [except Exception]. *)
Record exn := Exception { message : string }.

#[global] Instance exn_eq_dec : EqDecision exn.
Proof. solve_decision. Defined.

(** What a call does: it returns a value or it raises. *)
Inductive outcome (A : Type) : Type :=
| Returned (a : A)
| Raised (e : exn).
Arguments Returned {A} a.
Arguments Raised {A} e.

(** The field values of a record that the harness looks at: [None], integers
    and strings.  A [task_id] is one of them, and Python's [==] and [hash] on
    them is structural equality.  Lists, objects, floats and booleans occur
    only in the payload of a problem, which the harness copies and never
    reads; they are left out. *)
Inductive value : Type :=
| VNone
| VInt (n : Z)
| VStr (s : string).

#[global] Instance value_eq_dec : EqDecision value.
Proof. solve_decision. Defined.

#[global] Instance value_inhabited : Inhabited value := populate VNone.

Definition value_encode (v : value) : unit + (Z + string) :=
  match v with
  | VNone => inl ()
  | VInt n => inr (inl n)
  | VStr s => inr (inr s)
  end.

Definition value_decode (x : unit + (Z + string)) : value :=
  match x with
  | inl _ => VNone
  | inr (inl n) => VInt n
  | inr (inr s) => VStr s
  end.

#[global] Instance value_countable : Countable value.
Proof.
  apply (inj_countable' value_encode value_decode).
  by intros [].
Defined.

(** A problem, and a result, is a [dict] with string keys. *)
Abbreviation record := (gmap string value).

(** ** The Python library functions that the sources call *)

Module Py.

(** [s.startswith(prefix)] *)
Definition startswith (s pre : string) : bool := String.prefix pre s.

(** [s.endswith(suffix)]: some tail of [s] is [suffix]. *)
Fixpoint endswith (s suffix : string) : bool :=
  if bool_decide (s = suffix) then true
  else match s with
       | "" => false
       | String _ s' => endswith s' suffix
       end.

Definition occurs_in (c : Ascii.ascii) (chars : string) : bool :=
  bool_decide (c ∈ String.list_ascii_of_string chars).

(** [s.rstrip(chars)]: [chars] is a set of characters, and every character
    of it is dropped from the right end of [s]. *)
Fixpoint rstrip (s chars : string) : string :=
  match s with
  | "" => ""
  | String c s' =>
      match rstrip s' chars with
      | "" => if occurs_in c chars then "" else String c ""
      | t => String c t
      end
  end.

(** One step of [posixpath.join]: a component that starts with the
    separator replaces what was joined so far. *)
Definition join_step (path b : string) : string :=
  if startswith b "/" then b
  else if bool_decide (path = "") || endswith path "/" then path +:+ b
  else path +:+ "/" +:+ b.

(** [os.path.join(a, *p)] *)
Definition os_path_join (a : string) (p : list string) : string :=
  foldl join_step a p.

(** [x or y] on an optional string: [None] and the empty string are falsy. *)
Definition str_or (x : option string) (y : string) : string :=
  match x with
  | Some s => if bool_decide (s = "") then y else s
  | None => y
  end.

(** [x or y] on an optional integer: [None] and [0] are falsy. *)
Definition int_or (x : option Z) (y : Z) : Z :=
  match x with
  | Some n => if bool_decide (n = 0%Z) then y else n
  | None => y
  end.

(** A path that does not start at the root of the file system. *)
Definition relative (s : string) : bool := negb (startswith s "/").

(** A path that is not empty and does not end with the separator. *)
Definition open_ended (s : string) : bool :=
  negb (bool_decide (s = "")) && negb (endswith s "/").

(** A path component: relative, not empty, not ending with the separator. *)
Definition component (s : string) : bool := relative s && open_ended s.

(** [os.makedirs(d)] on the set of paths that exist.  Only the leaf is
    recorded; the ancestors it creates on the way are not tracked. *)
Definition os_makedirs (d : string) (paths : gset string) : gset string :=
  {[d]} ∪ paths.

End Py.

(** The parsed command line, as [runner.py] reads it. *)
Module argparse.
Record Namespace : Type := {
  provider : string;
  pset : string;
  model : string;
  temperature : float;
  quantization : string;
  stream : bool;
  py_interpreter : bool;
  output_file_name : option string;
}.
End argparse.

Module Runner.

(** ** The output path *)

Section OutputPath.

(** From [zero_shot_replication.core], not among the sources: the project
    root, the sanitiser of path components, the file-name template
    [OUTPUT_FILE_NAME] applied to its six fields (PROVIDER, pset, MODEL,
    TEMPERATURE, QUANTIZATION, VERSION), and [str] on a float. *)
Variable get_root_dir : string.
Variable prep_for_file_path : string → string.
Variable OUTPUT_FILE_NAME_format :
  string → string → string → string → string → string → string.
Variable str_float : float → string.

Definition py_interpreter_segment (args : argparse.Namespace) : string :=
  if argparse.py_interpreter args then "_py-interpreter" else "".

Definition output_dir (args : argparse.Namespace) : string :=
  Py.os_path_join get_root_dir
    ["results";
     prep_for_file_path (argparse.provider args);
     prep_for_file_path (argparse.pset args);
     prep_for_file_path (argparse.model args)].

(** [str(args.quantization)] is [args.quantization]: it is a string. *)
Definition base_file_name (args : argparse.Namespace) (version : string) : string :=
  OUTPUT_FILE_NAME_format
    (prep_for_file_path (argparse.provider args))
    (prep_for_file_path (argparse.pset args))
    (prep_for_file_path (argparse.model args))
    (prep_for_file_path (str_float (argparse.temperature args)))
    (prep_for_file_path (argparse.quantization args))
    (prep_for_file_path version).

Definition output_file_name (args : argparse.Namespace) (version : string) : string :=
  Py.rstrip (base_file_name args version) ".jsonl"
    +:+ py_interpreter_segment args +:+ ".jsonl".

(** [get_output_path(args, version)], on the set of paths that exist: the
    path, and the paths that exist afterwards. *)
Definition get_output_path (args : argparse.Namespace) (version : string)
    (paths : gset string) : string * gset string :=
  let paths' :=
    if bool_decide (output_dir args ∈ paths) then paths
    else Py.os_makedirs (output_dir args) paths in
  (Py.os_path_join (output_dir args)
     [Py.str_or (argparse.output_file_name args) (output_file_name args version)],
   paths').

End OutputPath.

(** ** The result store *)

(** Modelled from the spec: [load_existing_jsonl] of
  [zero_shot_replication.core.utils], which is not among the sources.  The
  store's load "returns empty sequence if the file does not exist" and the
  parsed records, in order, otherwise.  The file is its list of records;
  [None] is an absent file. *)
Definition load_existing_jsonl (out_file : option (list record)) : list record :=
default [] out_file.

(** [{result["task_id"] for result in results if "task_id" in result}] *)
Definition exising_task_ids (results : list record) : gset value :=
list_to_set
  ((λ result : record, result !!! "task_id")
     <$> filter (λ result : record, is_Some (result !! "task_id")) results).

(** What the run does that can be seen from outside, in the order it does it. *)
Inductive event : Type :=
| Skipped (task_id : value)
| Called (task_id : value) (prompt : string)
| Failed (task_id : value) (e : exn)
| Wrote (rs : list record).

#[global] Instance event_eq_dec : EqDecision event.
Proof. solve_decision. Defined.

(** How the script ends: it runs off its end (exit status 0) or an exception
  leaves it. *)
Inductive status : Type :=
| Normal
| Uncaught (e : exn).

Definition SENTINEL : string := "Error encountered".

Definition codegen_psets : list string :=
["human-eval"; "leetcode"; "leetcode-msft-sparks"].

(** [{**problem, "task_id": ..., "completion": ..., "raw_completion": ...,
   "actual_prompt": ...}] *)
Definition make_result (problem : record) (task_id : value)
  (completion raw_completion prompt : string) : record :=
<["actual_prompt" := VStr prompt]>
  (<["raw_completion" := VStr raw_completion]>
     (<["completion" := VStr completion]>
        (<["task_id" := task_id]> problem))).

Definition error_result (problem : record) (task_id : value) (prompt : string) : record :=
make_result problem task_id SENTINEL SENTINEL prompt.

Section Harness.

(** The collaborators of the loop.  The provider is stateful: a call takes
    the provider as it is and leaves it changed.  The formatter is given the
    dataset too, which is the same all along the run. *)
Context {provider_state : Type}.
Variable get_completion : provider_state → string → provider_state * outcome string.
Variable get_formatted_prompt : record → outcome string.
Variable extract_code : string → outcome string.
(** [args.pset] *)
Variable pset : string.

(** The variables of the script that the loop reads and writes, the output
    file, and the events so far. *)
Record state : Type := State {
  results : list record;
  out_file : option (list record);
  provider : provider_state;
  result : option record;
  trace : list event;
}.

Definition log (ev : event) (st : state) : state :=
  State (results st) (out_file st) (provider st) (result st) (trace st ++ [ev]).

(** [write_jsonl(out_path, results)], of the [evalplus] library: the store's
    write "serializes the full sequence, one JSON object per line,
    overwriting the file", so the file becomes the whole list. *)
Definition write_jsonl (st : state) : state :=
  State (results st) (Some (results st)) (provider st) (result st)
    (trace st ++ [Wrote (results st)]).

(** The body of the [try] up to the assembly of the result: the completion
    and the raw completion, or the exception, with the provider as the call
    left it. *)
Definition attempt (p : provider_state) (prompt : string)
    : provider_state * outcome (string * string) :=
  let '(p', r) := get_completion p prompt in
  match r with
  | Raised e => (p', Raised e)
  | Returned raw_completion =>
      if bool_decide (pset ∈ codegen_psets) then
        match extract_code raw_completion with
        | Returned completion => (p', Returned (completion, raw_completion))
        | Raised e => (p', Raised e)
        end
      else (p', Returned (raw_completion, raw_completion))
  end.

(** One iteration of [for task_id, problem in dataset.generator]. *)
Definition loop_body (existing : gset value) (st : state)
    (item : value * record) : state * status :=
  let '(task_id, problem) := item in
  if bool_decide (task_id ∈ existing) then (log (Skipped task_id) st, Normal)
  else
    match get_formatted_prompt problem with
    | Raised e => (st, Uncaught e)
    | Returned prompt =>
        let '(p', r) := attempt (provider st) prompt in
        let tr := trace st ++ [Called task_id prompt] in
        match r with
        | Returned (completion, raw_completion) =>
            let res := make_result problem task_id completion raw_completion prompt in
            (write_jsonl (State (results st ++ [res]) (out_file st) p' (Some res) tr),
             Normal)
        | Raised e =>
            let res := error_result problem task_id prompt in
            (write_jsonl
               (State (results st) (out_file st) p' (Some res)
                  (tr ++ [Failed task_id e])),
             Normal)
        end
    end.

Fixpoint run_loop (existing : gset value) (st : state)
    (dataset : list (value * record)) : state * status :=
  match dataset with
  | [] => (st, Normal)
  | item :: rest =>
      match loop_body existing st item with
      | (st', Normal) => run_loop existing st' rest
      | (st', Uncaught e) => (st', Uncaught e)
      end
  end.

(** The script from "Load existing results" on. *)
Definition main (file0 : option (list record)) (p0 : provider_state)
    (dataset : list (value * record)) : state * status :=
  let results := load_existing_jsonl file0 in
  let exising := exising_task_ids results in
  run_loop exising (State results file0 p0 None []) dataset.

(** The provider calls among the events. *)
Definition calls_of (tr : list event) : list (value * string) :=
  omap (λ ev, match ev with Called t p => Some (t, p) | _ => None end) tr.

Definition writes_of (tr : list event) : list (list record) :=
  omap (λ ev, match ev with Wrote rs => Some rs | _ => None end) tr.

(** The tasks of the dataset that reach the provider, with their prompts:
    the ones that are not skipped and whose prompt gets built. *)
Definition attempts (existing : gset value) (dataset : list (value * record))
    : list (value * string) :=
  omap (λ item : value * record,
          if bool_decide (item.1 ∈ existing) then None
          else match get_formatted_prompt item.2 with
               | Returned prompt => Some (item.1, prompt)
               | Raised _ => None
               end) dataset.

(** The file holds what the list in memory holds. *)
Definition synced (st : state) : Prop :=
  load_existing_jsonl (out_file st) = results st.

(** What holds between iterations of a run that started from [loaded]. *)
Definition run_invariant (loaded : list record) (existing : gset value)
    (st : state) : Prop :=
  loaded `prefix_of` results st
  ∧ synced st
  ∧ (∀ task_id prompt, Called task_id prompt ∈ trace st → task_id ∉ existing)
  ∧ (∀ rs, Wrote rs ∈ trace st → loaded `prefix_of` rs).

End Harness.

(** The failures among the events. *)
Definition failures_of (tr : list event) : list (value * exn) :=
  omap (λ ev, match ev with Failed t e => Some (t, e) | _ => None end) tr.

End Runner.

(** ** A small run

    Two tasks, a provider that answers the first prompt and fails on every
    other one, and an extractor that takes the code out of a fenced answer. *)

Module Scenario.

Definition problem (prompt : string) : record := {["prompt" := VStr prompt]}.

Definition dataset : list (value * record) :=
  [(VStr "t1", problem "p1"); (VStr "t2", problem "p2")].

(** The same tasks, the failing one first. *)
Definition failing_first : list (value * record) :=
  [(VStr "t2", problem "p2"); (VStr "t1", problem "p1")].

(** The same tasks, the first one without the field the formatter reads. *)
Definition broken_dataset : list (value * record) :=
  [(VStr "t1", ∅); (VStr "t2", problem "p2")].

Definition get_formatted_prompt (problem : record) : outcome string :=
  match problem !! "prompt" with
  | Some (VStr s) => Returned s
  | _ => Raised (Exception "KeyError: 'prompt'")
  end.

(** The provider counts its calls. *)
Definition get_completion (calls : nat) (prompt : string) : nat * outcome string :=
  (S calls,
   if bool_decide (prompt = "p1") then Returned "```print(1)```"
   else Raised (Exception "provider unavailable")).

Definition extract_code (raw : string) : outcome string :=
  if bool_decide (raw = "```print(1)```") then Returned "print(1)" else Returned raw.

(** A results file that was edited by hand: its first record has no
    ["task_id"]. *)
Definition note : record := {["note" := VStr "edited by hand"]}.

Definition done_t1 : record :=
  Runner.make_result (problem "p1") (VStr "t1") "print(1)" "```print(1)```" "p1".

Definition edited_file : option (list record) := Some [note; done_t1].

Definition start : @Runner.state nat := Runner.State [] None 0 None [].

(** A command line, with stand-ins for what [zero_shot_replication.core]
    provides. *)
Definition get_root_dir : string := "/repo".

Definition prep_for_file_path (s : string) : string := s.

Definition OUTPUT_FILE_NAME_format (PROVIDER pset MODEL TEMPERATURE QUANTIZATION
    VERSION : string) : string :=
  PROVIDER +:+ "_" +:+ pset +:+ "__model_eq_" +:+ MODEL
    +:+ "__temperature_eq_" +:+ TEMPERATURE
    +:+ "__quantization_eq_" +:+ QUANTIZATION
    +:+ "__version_eq_" +:+ VERSION +:+ ".jsonl".

Definition str_float (x : float) : string := "0.7".

Definition args (py_interpreter : bool) (output_file_name : option string)
    : argparse.Namespace :=
  {| argparse.provider := "openai";
     argparse.pset := "human-eval";
     argparse.model := "gpt-4";
     argparse.temperature := QArith_base.Qmake 7 10;
     argparse.quantization := "float16";
     argparse.stream := false;
     argparse.py_interpreter := py_interpreter;
     argparse.output_file_name := output_file_name |}.

End Scenario.

(** ** The local Wizard model *)

(** [transformers.GenerationConfig], with the keyword arguments that
    [get_completion] gives it. *)
Module transformers.
Record GenerationConfig : Type := {
  temperature : float;
  top_p : float;
  top_k : Z;
  num_beams : Z;
  eos_token_id : option Z;
  pad_token_id : option Z;
  do_sample : bool;
}.
End transformers.

Module WizardModel.

Definition MAX_NEW_TOKENS : Z := 384.
Definition TOP_K : Z := 40.
Definition TOP_P : float := QArith_base.Qmake 9 10.
Definition NUM_BEAMS : Z := 1.

Inductive PromptMode : Type := HUMAN_FEEDBACK.

Inductive torch_dtype : Type := torch_float16 | torch_bfloat16.

(** What the process sees of its machine: [torch.cuda.is_available()] and
    the environment variable [HF_TOKEN]. *)
Record environment : Type := {
  cuda_is_available : bool;
  HF_TOKEN : option string;
}.

(** The loads of the model runtime, in the order they happen. *)
Inductive load : Type :=
| LoadTokenizer (name : string)
| LoadWeights (name : string) (dtype : torch_dtype).

Section Model.

(** The model runtime ([transformers]) and the parts of
    [zero_shot_replication] that are not among the sources: the
    [Quantization] enumeration with its member [float16], and
    [quantization_to_kwargs].  The base class [LargeLanguageModel] is not
    among them either; its constructor is taken to keep its arguments. *)
Context {Quantization Kwargs Tokenizer Weights Tensor : Type}.
Context `{EqDecision Quantization}.
Variable Quantization_float16 : Quantization.
Variable quantization_to_kwargs : Quantization → Kwargs.
Variable LlamaTokenizer_from_pretrained : string → string → Kwargs → Tokenizer.
Variable LlamaForCausalLM_from_pretrained : string → torch_dtype → string → Weights.
Variable tokenizer_eos_token_id tokenizer_pad_token_id : Tokenizer → option Z.
(** [tokenizer(prompt, return_tensors="pt").to(device)["input_ids"]] *)
Variable tokenize : Tokenizer → string → string → Tensor.
(** [model.generate(input_ids, generation_config=..., max_new_tokens=...)[0]] *)
Variable generate : Weights → Tensor → transformers.GenerationConfig → Z → Tensor.
Variable tensor_to : Tensor → string → Tensor.
Variable decode : Tokenizer → Tensor → string.

Record HuggingFaceWizardModel : Type := {
  device : string;
  model_name : string;
  quantization : Quantization;
  stream : bool;
  prompt_mode : PromptMode;
  max_new_tokens : Z;
  hf_access_token : string;
  tokenizer : Tokenizer;
  model : Weights;
  temperature : float;
}.

(** [HuggingFaceWizardModel.__init__]: the object, and the loads made. *)
Definition __init__ (env : environment) (model_name : string)
    (quantization : Quantization) (temperature : float) (stream : bool)
    (max_new_tokens : option Z) : HuggingFaceWizardModel * list load :=
  let device := if cuda_is_available env then "cuda" else "cpu" in
  let max_new_tokens := Py.int_or max_new_tokens MAX_NEW_TOKENS in
  let hf_access_token := default "" (HF_TOKEN env) in
  let tokenizer :=
    LlamaTokenizer_from_pretrained model_name hf_access_token
      (quantization_to_kwargs quantization) in
  let dtype :=
    if bool_decide (quantization = Quantization_float16)
    then torch_float16 else torch_bfloat16 in
  let model := LlamaForCausalLM_from_pretrained model_name dtype hf_access_token in
  ({| device := device; model_name := model_name; quantization := quantization;
      stream := stream; prompt_mode := HUMAN_FEEDBACK;
      max_new_tokens := max_new_tokens; hf_access_token := hf_access_token;
      tokenizer := tokenizer; model := model; temperature := temperature |},
   [LoadTokenizer model_name; LoadWeights model_name dtype]).

Definition generation_config (self : HuggingFaceWizardModel)
    : transformers.GenerationConfig :=
  {| transformers.temperature := temperature self;
     transformers.top_p := TOP_P;
     transformers.top_k := TOP_K;
     transformers.num_beams := NUM_BEAMS;
     transformers.eos_token_id := tokenizer_eos_token_id (tokenizer self);
     transformers.pad_token_id := tokenizer_pad_token_id (tokenizer self);
     transformers.do_sample := true |}.

(** [HuggingFaceWizardModel.get_completion] *)
Definition get_completion (self : HuggingFaceWizardModel) (prompt : string) : string :=
  let inputs := tokenize (tokenizer self) prompt (device self) in
  let output :=
    generate (model self) inputs (generation_config self) (max_new_tokens self) in
  let output := tensor_to output (device self) in
  decode (tokenizer self) output.

End Model.

End WizardModel.

(** Stand-ins for the model runtime: a tokenizer that keeps the text, and
    weights that echo their input. *)
Module WizardScenario.

Definition Quantization_float16 : string := "float16".

Definition quantization_to_kwargs (quantization : string) : unit := tt.

Definition LlamaTokenizer_from_pretrained (name token : string) (kwargs : unit)
    : string := name.

Definition LlamaForCausalLM_from_pretrained (name : string)
    (dtype : WizardModel.torch_dtype) (token : string)
    : string * WizardModel.torch_dtype := (name, dtype).

Definition tokenizer_token_id (tokenizer : string) : option Z := Some 2%Z.

Definition tokenize (tokenizer prompt device : string) : string := prompt.

Definition generate (weights : string * WizardModel.torch_dtype) (input : string)
    (config : transformers.GenerationConfig) (max_new_tokens : Z) : string := input.

Definition tensor_to (tensor device : string) : string := tensor.

Definition decode (tokenizer tensor : string) : string := tensor.

Definition env : WizardModel.environment :=
  {| WizardModel.cuda_is_available := false; WizardModel.HF_TOKEN := None |}.

End WizardScenario.

(** * Properties *)

(** ** The skip set *)

Lemma elem_of_exising_task_ids (rs : list record) (x : value) :
  x ∈ Runner.exising_task_ids rs ↔ ∃ r : record, r ∈ rs ∧ r !! "task_id" = Some x.
Proof.
  unfold Runner.exising_task_ids.
  rewrite elem_of_list_to_set, list_elem_of_fmap. split.
  - intros (r & -> & Hr). apply list_elem_of_filter in Hr as [[v Hv] Hr].
    exists r. split; [done|]. by rewrite lookup_total_alt, Hv.
  - intros (r & Hr & Hx). exists r. split.
    + by rewrite lookup_total_alt, Hx.
    + apply list_elem_of_filter. split; [by rewrite Hx|done].
Qed.

Lemma exising_task_ids_app (l1 l2 : list record) :
  Runner.exising_task_ids (l1 ++ l2)
  = Runner.exising_task_ids l1 ∪ Runner.exising_task_ids l2.
Proof.
  unfold Runner.exising_task_ids.
  by rewrite filter_app, fmap_app, list_to_set_app_L.
Qed.

Lemma exising_task_ids_cons_no_key (r : record) (l : list record) :
  r !! "task_id" = None →
  Runner.exising_task_ids (r :: l) = Runner.exising_task_ids l.
Proof.
  intros Hr. unfold Runner.exising_task_ids.
  rewrite filter_cons_False; [done|]. rewrite Hr. by intros [? ?].
Qed.

(** ** The fields of a result *)

Lemma make_result_task_id problem task_id completion raw prompt :
  Runner.make_result problem task_id completion raw prompt !! "task_id" = Some task_id.
Proof. unfold Runner.make_result. by simplify_map_eq. Qed.

Lemma make_result_completion problem task_id completion raw prompt :
  Runner.make_result problem task_id completion raw prompt !! "completion"
  = Some (VStr completion).
Proof. unfold Runner.make_result. by simplify_map_eq. Qed.

Lemma make_result_raw_completion problem task_id completion raw prompt :
  Runner.make_result problem task_id completion raw prompt !! "raw_completion"
  = Some (VStr raw).
Proof. unfold Runner.make_result. by simplify_map_eq. Qed.

Lemma make_result_actual_prompt problem task_id completion raw prompt :
  Runner.make_result problem task_id completion raw prompt !! "actual_prompt"
  = Some (VStr prompt).
Proof. unfold Runner.make_result. by simplify_map_eq. Qed.

(** The fields of the problem that the four keys do not name pass through. *)
Lemma make_result_problem_field problem task_id completion raw prompt (k : string) :
  k ∉ ["task_id"; "completion"; "raw_completion"; "actual_prompt"] →
  Runner.make_result problem task_id completion raw prompt !! k = problem !! k.
Proof.
  intros Hk. unfold Runner.make_result.
  rewrite !lookup_insert_ne; [done|intros <-; apply Hk; set_solver..].
Qed.

(** ** The loop *)

Section HarnessProperties.

Context {provider_state : Type}.
Variable get_completion : provider_state → string → provider_state * outcome string.
Variable get_formatted_prompt : record → outcome string.
Variable extract_code : string → outcome string.
Variable pset : string.

Local Abbreviation state := (@Runner.state provider_state).
Local Abbreviation attempt := (Runner.attempt get_completion extract_code pset).
Local Abbreviation loop_body :=
  (Runner.loop_body get_completion get_formatted_prompt extract_code pset).
Local Abbreviation run_loop :=
  (Runner.run_loop get_completion get_formatted_prompt extract_code pset).
Local Abbreviation main :=
  (Runner.main get_completion get_formatted_prompt extract_code pset).

Implicit Types (st : state) (existing : gset value) (task_id : value)
  (problem : record) (dataset : list (value * record)).

(** The three ways through the body. *)
Lemma loop_body_skip existing st task_id problem :
  task_id ∈ existing →
  loop_body existing st (task_id, problem)
  = (Runner.log (Runner.Skipped task_id) st, Runner.Normal).
Proof. intros Hin. unfold Runner.loop_body. by rewrite bool_decide_eq_true_2. Qed.

Lemma loop_body_prompt_raises existing st task_id problem e :
  task_id ∉ existing →
  get_formatted_prompt problem = Raised e →
  loop_body existing st (task_id, problem) = (st, Runner.Uncaught e).
Proof.
  intros Hin He. unfold Runner.loop_body.
  by rewrite bool_decide_eq_false_2, He.
Qed.

Lemma loop_body_returned existing st task_id problem prompt p' completion raw :
  task_id ∉ existing →
  get_formatted_prompt problem = Returned prompt →
  attempt (Runner.provider st) prompt = (p', Returned (completion, raw)) →
  loop_body existing st (task_id, problem)
  = (let res := Runner.make_result problem task_id completion raw prompt in
     Runner.write_jsonl
       (Runner.State (Runner.results st ++ [res]) (Runner.out_file st) p' (Some res)
          (Runner.trace st ++ [Runner.Called task_id prompt])),
     Runner.Normal).
Proof.
  intros Hin Hp Ha. unfold Runner.loop_body.
  by rewrite bool_decide_eq_false_2, Hp, Ha.
Qed.

Lemma loop_body_raised existing st task_id problem prompt p' e :
  task_id ∉ existing →
  get_formatted_prompt problem = Returned prompt →
  attempt (Runner.provider st) prompt = (p', Raised e) →
  loop_body existing st (task_id, problem)
  = (Runner.write_jsonl
       (Runner.State (Runner.results st) (Runner.out_file st) p'
          (Some (Runner.error_result problem task_id prompt))
          ((Runner.trace st ++ [Runner.Called task_id prompt])
             ++ [Runner.Failed task_id e])),
     Runner.Normal).
Proof.
  intros Hin Hp Ha. unfold Runner.loop_body.
  by rewrite bool_decide_eq_false_2, Hp, Ha.
Qed.

(** What raises in the [try]: the provider, or the extractor on a codegen
    problem set. *)
Lemma attempt_raised p prompt p' e :
  attempt p prompt = (p', Raised e) ↔
  get_completion p prompt = (p', Raised e)
  ∨ ∃ raw, get_completion p prompt = (p', Returned raw)
           ∧ pset ∈ Runner.codegen_psets ∧ extract_code raw = Raised e.
Proof.
  unfold Runner.attempt.
  destruct (get_completion p prompt) as [q [raw|e']] eqn:Hg.
  - case_bool_decide as Hc; [destruct (extract_code raw) as [c|e''] eqn:Hx|].
    + split; [done|]. intros [?|(raw' & ? & ? & ?)]; congruence.
    + split.
      * intros ?; simplify_eq. right. by exists raw.
      * intros [?|(raw' & ? & ? & ?)]; congruence.
    + split; [done|]. intros [?|(raw' & ? & ? & ?)]; congruence.
  - split.
    + intros ?; simplify_eq. by left.
    + intros [?|(raw' & ? & ? & ?)]; congruence.
Qed.

(** A case analysis of one iteration, for the invariants below. *)
Lemma loop_body_cases existing st task_id problem :
  (task_id ∈ existing
   ∧ loop_body existing st (task_id, problem)
     = (Runner.log (Runner.Skipped task_id) st, Runner.Normal))
  ∨ ((task_id ∉ existing)
     ∧ (∃ e, get_formatted_prompt problem = Raised e
             ∧ loop_body existing st (task_id, problem) = (st, Runner.Uncaught e)))
  ∨ ((task_id ∉ existing)
     ∧ (∃ prompt p' completion raw,
          get_formatted_prompt problem = Returned prompt
          ∧ attempt (Runner.provider st) prompt = (p', Returned (completion, raw))
          ∧ loop_body existing st (task_id, problem)
            = (let res := Runner.make_result problem task_id completion raw prompt in
               Runner.write_jsonl
                 (Runner.State (Runner.results st ++ [res]) (Runner.out_file st) p'
                    (Some res) (Runner.trace st ++ [Runner.Called task_id prompt])),
               Runner.Normal)))
  ∨ ((task_id ∉ existing)
     ∧ (∃ prompt p' e,
          get_formatted_prompt problem = Returned prompt
          ∧ attempt (Runner.provider st) prompt = (p', Raised e)
          ∧ loop_body existing st (task_id, problem)
            = (Runner.write_jsonl
                 (Runner.State (Runner.results st) (Runner.out_file st) p'
                    (Some (Runner.error_result problem task_id prompt))
                    ((Runner.trace st ++ [Runner.Called task_id prompt])
                       ++ [Runner.Failed task_id e])),
               Runner.Normal))).
Proof.
  destruct (decide (task_id ∈ existing)) as [Hin|Hin].
  { left. eauto using loop_body_skip. }
  right. destruct (get_formatted_prompt problem) as [prompt|e] eqn:Hp.
  2:{ left. eauto using loop_body_prompt_raises. }
  right. destruct (attempt (Runner.provider st) prompt) as [p' [[c raw]|e]] eqn:Ha.
  - left. split; [done|]. exists prompt, p', c, raw.
    eauto using loop_body_returned.
  - right. split; [done|]. exists prompt, p', e.
    eauto using loop_body_raised.
Qed.

(** A property of states that every iteration keeps holds when the loop
    ends, however it ends. *)
Lemma run_loop_invariant (P : state → Prop) existing :
  (∀ st item, P st → P (loop_body existing st item).1) →
  ∀ dataset st, P st → P (run_loop existing st dataset).1.
Proof.
  intros Hstep dataset. induction dataset as [|item rest IH]; intros st HP; [done|].
  simpl. specialize (Hstep st item HP).
  destruct (loop_body existing st item) as [st' [|e]]; [by apply IH|done].
Qed.

Lemma loop_body_run_invariant loaded existing st item :
  Runner.run_invariant loaded existing st →
  Runner.run_invariant loaded existing (loop_body existing st item).1.
Proof.
  intros (Hpre & Hsync & Hcalls & Hwrites). destruct item as [task_id problem].
  destruct (loop_body_cases existing st task_id problem)
    as [[Hin ->]|[[Hin (e & _ & ->)]|[[Hin (prompt & p' & c & raw & _ & _ & ->)]
       |[Hin (prompt & p' & e & _ & _ & ->)]]]]; simpl.
  - split_and!; [done..| |].
    + intros t p [?|[=]%list_elem_of_singleton]%elem_of_app. eauto.
    + intros rs [?|[=]%list_elem_of_singleton]%elem_of_app. eauto.
  - done.
  - split_and!.
    + by apply prefix_app_r.
    + done.
    + intros t p [[?|[= -> ->]%list_elem_of_singleton]%elem_of_app
                 |[=]%list_elem_of_singleton]%elem_of_app; eauto.
    + intros rs [[?|[=]%list_elem_of_singleton]%elem_of_app
                |[= ->]%list_elem_of_singleton]%elem_of_app; eauto.
      by apply prefix_app_r.
  - split_and!.
    + done.
    + done.
    + intros t p [[[?|[= -> ->]%list_elem_of_singleton]%elem_of_app
                  |[=]%list_elem_of_singleton]%elem_of_app
                 |[=]%list_elem_of_singleton]%elem_of_app; eauto.
    + intros rs [[[?|[=]%list_elem_of_singleton]%elem_of_app
                 |[=]%list_elem_of_singleton]%elem_of_app
                |[= ->]%list_elem_of_singleton]%elem_of_app; eauto.
Qed.

Lemma main_run_invariant file0 p0 dataset :
  Runner.run_invariant (Runner.load_existing_jsonl file0)
    (Runner.exising_task_ids (Runner.load_existing_jsonl file0))
    (main file0 p0 dataset).1.
Proof.
  unfold Runner.main. apply run_loop_invariant.
  - intros st item. apply loop_body_run_invariant.
  - split_and!; simpl; [done|done|..].
    + by intros t p ?%elem_of_nil.
    + by intros rs ?%elem_of_nil.
Qed.

(** C1 (resume idempotence).  A task whose id is the ["task_id"] of a
    record loaded at startup is skipped: the iteration changes nothing but
    the log, so the provider is not called; no provider call of the whole
    run is for such an id; and the records loaded at startup are, unchanged
    and in order, the first records of the file as the run leaves it, so
    every one of them is still in it. *)
Theorem resume_idempotence file0 p0 dataset :
  let loaded := Runner.load_existing_jsonl file0 in
  let final := (main file0 p0 dataset).1 in
  (∀ (r : record) task_id problem st,
      r ∈ loaded → r !! "task_id" = Some task_id →
      loop_body (Runner.exising_task_ids loaded) st (task_id, problem)
      = (Runner.log (Runner.Skipped task_id) st, Runner.Normal))
  ∧ (∀ (r : record) task_id prompt,
        r ∈ loaded → r !! "task_id" = Some task_id →
        Runner.Called task_id prompt ∉ Runner.trace final)
  ∧ loaded `prefix_of` Runner.load_existing_jsonl (Runner.out_file final)
  ∧ (∀ r : record,
        r ∈ loaded → r ∈ Runner.load_existing_jsonl (Runner.out_file final)).
Proof.
  intros loaded final.
  destruct (main_run_invariant file0 p0 dataset) as (Hpre & Hsync & Hcalls & _).
  fold loaded final in Hpre, Hsync, Hcalls. red in Hsync.
  split_and!.
  - intros r task_id problem st Hr Hid. apply loop_body_skip.
    apply elem_of_exising_task_ids. eauto.
  - intros r task_id prompt Hr Hid Hcall. apply Hcalls in Hcall.
    apply Hcall, elem_of_exising_task_ids. eauto.
  - by rewrite Hsync.
  - intros r Hr. rewrite Hsync. destruct Hpre as [k ->].
    apply elem_of_app. by left.
Qed.

(** C2 (a failed task is not persisted).  When the provider call raises, or
    the extraction does on a codegen problem set, the error Result is built
    with the sentinel in ["completion"] and ["raw_completion"], the list in
    memory is left as it was, and the file written at the end of the
    iteration holds exactly the records it held before the task. *)
Theorem failed_task_not_persisted existing st task_id problem prompt p' e :
  task_id ∉ existing →
  get_formatted_prompt problem = Returned prompt →
  (get_completion (Runner.provider st) prompt = (p', Raised e)
   ∨ ∃ raw, get_completion (Runner.provider st) prompt = (p', Returned raw)
            ∧ pset ∈ Runner.codegen_psets ∧ extract_code raw = Raised e) →
  Runner.synced st →
  let st' := (loop_body existing st (task_id, problem)).1 in
  let err := Runner.error_result problem task_id prompt in
  Runner.result st' = Some err
  ∧ err !! "completion" = Some (VStr "Error encountered")
  ∧ err !! "raw_completion" = Some (VStr "Error encountered")
  ∧ Runner.results st' = Runner.results st
  ∧ Runner.out_file st' = Some (Runner.results st)
  ∧ Runner.load_existing_jsonl (Runner.out_file st')
    = Runner.load_existing_jsonl (Runner.out_file st).
Proof.
  intros Hin Hp Hraise Hsync st' err. subst st'.
  apply attempt_raised in Hraise.
  rewrite (loop_body_raised _ _ _ _ _ _ _ Hin Hp Hraise). simpl.
  split_and!; try done.
  - apply make_result_completion.
  - apply make_result_raw_completion.
Qed.

(** C4 (extraction gating).  When the provider returns [raw], the record
    appended for the task has [raw] itself under ["raw_completion"], and
    under ["completion"] what [extract_code] returns on [raw] if the problem
    set is one of the three codegen ones, and [raw] itself for any other
    problem set. *)
Theorem extraction_gating existing st task_id problem prompt p' raw completion :
  task_id ∉ existing →
  get_formatted_prompt problem = Returned prompt →
  get_completion (Runner.provider st) prompt = (p', Returned raw) →
  (pset ∈ ["human-eval"; "leetcode"; "leetcode-msft-sparks"]
   ∧ extract_code raw = Returned completion)
  ∨ ((pset ∉ ["human-eval"; "leetcode"; "leetcode-msft-sparks"])
     ∧ completion = raw) →
  let st' := (loop_body existing st (task_id, problem)).1 in
  ∃ res : record,
    Runner.results st' = Runner.results st ++ [res]
    ∧ Runner.out_file st' = Some (Runner.results st ++ [res])
    ∧ res !! "completion" = Some (VStr completion)
    ∧ res !! "raw_completion" = Some (VStr raw).
Proof.
  intros Hin Hp Hg Hgate st'. subst st'.
  assert (attempt (Runner.provider st) prompt = (p', Returned (completion, raw)))
    as Ha.
  { unfold Runner.attempt. rewrite Hg. fold Runner.codegen_psets in Hgate.
    destruct Hgate as [[Hc Hx]|[Hc ->]].
    - by rewrite bool_decide_eq_true_2, Hx.
    - by rewrite bool_decide_eq_false_2. }
  rewrite (loop_body_returned _ _ _ _ _ _ _ _ Hin Hp Ha). simpl.
  eexists. split_and!; try done.
  - apply make_result_completion.
  - apply make_result_raw_completion.
Qed.

(** C5 (persistence invariant).  An iteration that is not skipped ends by
    writing the file, and what it writes is the whole list in memory, which
    extends the list it started from.  So however the run ends, the file
    holds exactly the list in memory, that list starts with the records
    loaded at startup, and every write of the run was of a list that
    starts with them. *)
Theorem persistence_invariant file0 p0 dataset :
  let loaded := Runner.load_existing_jsonl file0 in
  let final := (main file0 p0 dataset).1 in
  (∀ existing st task_id problem prompt,
      task_id ∉ existing →
      get_formatted_prompt problem = Returned prompt →
      let st' := (loop_body existing st (task_id, problem)).1 in
      Runner.out_file st' = Some (Runner.results st')
      ∧ last (Runner.trace st') = Some (Runner.Wrote (Runner.results st'))
      ∧ Runner.results st `prefix_of` Runner.results st')
  ∧ Runner.load_existing_jsonl (Runner.out_file final) = Runner.results final
  ∧ loaded `prefix_of` Runner.results final
  ∧ (∀ rs, Runner.Wrote rs ∈ Runner.trace final → loaded `prefix_of` rs).
Proof.
  intros loaded final.
  destruct (main_run_invariant file0 p0 dataset) as (Hpre & Hsync & _ & Hwrites).
  split_and!; try done.
  intros existing st task_id problem prompt Hin Hp st'. subst st'.
  destruct (attempt (Runner.provider st) prompt) as [p' [[c raw]|e]] eqn:Ha.
  - rewrite (loop_body_returned _ _ _ _ _ _ _ _ Hin Hp Ha). simpl.
    split_and!; [done|by rewrite last_snoc|by apply prefix_app_r].
  - rewrite (loop_body_raised _ _ _ _ _ _ _ Hin Hp Ha). simpl.
    split_and!; [done|by rewrite last_snoc|done].
Qed.

(** C7, as amended (empty dataset).  On a dataset without tasks the run
    ends normally, having called nobody and written nothing: the list in
    memory is what was loaded, and the file is as it was at startup, with
    the records that were loaded if it was there and still absent if it
    was not. *)
Theorem empty_dataset file0 p0 :
  main file0 p0 []
  = (Runner.State (Runner.load_existing_jsonl file0) file0 p0 None [],
     Runner.Normal).
Proof. reflexivity. Qed.

(** C9 (loaded records without a task id).  A loaded record that has no
    ["task_id"] adds nothing to the skip set, which is the skip set of the
    other loaded records, and it stays in the list in memory, in every list
    the run writes, and in the file as the run leaves it. *)
Theorem keyless_record_kept file0 p0 dataset (r : record) :
  r ∈ Runner.load_existing_jsonl file0 →
  r !! "task_id" = None →
  let loaded := Runner.load_existing_jsonl file0 in
  let final := (main file0 p0 dataset).1 in
  (∀ l1 l2, loaded = l1 ++ r :: l2 →
            Runner.exising_task_ids loaded = Runner.exising_task_ids (l1 ++ l2))
  ∧ r ∈ Runner.results final
  ∧ (∀ rs, Runner.Wrote rs ∈ Runner.trace final → r ∈ rs)
  ∧ r ∈ Runner.load_existing_jsonl (Runner.out_file final).
Proof.
  intros Hr Hkey loaded final.
  destruct (main_run_invariant file0 p0 dataset) as (Hpre & Hsync & _ & Hwrites).
  fold loaded final in Hpre, Hsync, Hwrites. red in Hsync.
  assert (∀ rs, loaded `prefix_of` rs → r ∈ rs) as Hkeep.
  { intros rs [k ->]. apply elem_of_app. by left. }
  split_and!; [|by auto|by auto|rewrite Hsync; by auto].
  intros l1 l2 ->.
  by rewrite !exising_task_ids_app, exising_task_ids_cons_no_key.
Qed.

(** *** One attempt per task *)

Lemma loop_body_attempts existing st item :
  (item.1 ∉ existing → ∃ prompt, get_formatted_prompt item.2 = Returned prompt) →
  (loop_body existing st item).2 = Runner.Normal
  ∧ Runner.calls_of (Runner.trace (loop_body existing st item).1)
    = Runner.calls_of (Runner.trace st)
        ++ Runner.attempts get_formatted_prompt existing [item].
Proof.
  destruct item as [task_id problem]. intros Hfmt. simpl in Hfmt.
  unfold Runner.calls_of, Runner.attempts.
  destruct (loop_body_cases existing st task_id problem)
    as [[Hin ->]|[[Hin (e & He & ->)]|[[Hin (prompt & p' & c & raw & Hp & _ & ->)]
       |[Hin (prompt & p' & e & Hp & _ & ->)]]]]; simpl.
  - rewrite omap_app, bool_decide_eq_true_2 by done. split; [done|]. by simpl.
  - destruct (Hfmt Hin) as [prompt Hp]. congruence.
  - rewrite !omap_app, bool_decide_eq_false_2, Hp by done.
    split; [done|]. simpl. by rewrite app_nil_r.
  - rewrite !omap_app, bool_decide_eq_false_2, Hp by done.
    split; [done|]. simpl. by rewrite !app_nil_r.
Qed.

Lemma attempts_cons existing item dataset :
  Runner.attempts get_formatted_prompt existing (item :: dataset)
  = Runner.attempts get_formatted_prompt existing [item]
      ++ Runner.attempts get_formatted_prompt existing dataset.
Proof. unfold Runner.attempts. simpl. by repeat case_match. Qed.

Lemma run_loop_attempts existing dataset :
  (∀ task_id problem, (task_id, problem) ∈ dataset → task_id ∉ existing →
                      ∃ prompt, get_formatted_prompt problem = Returned prompt) →
  ∀ st,
    (run_loop existing st dataset).2 = Runner.Normal
    ∧ Runner.calls_of (Runner.trace (run_loop existing st dataset).1)
      = Runner.calls_of (Runner.trace st)
          ++ Runner.attempts get_formatted_prompt existing dataset.
Proof.
  induction dataset as [|item rest IH]; intros Hfmt st.
  { split; [done|]. by rewrite app_nil_r. }
  destruct (loop_body_attempts existing st item) as [Hnormal Hcalls].
  { destruct item as [t p]. intros Hin. apply (Hfmt t p); [left|done]. }
  simpl. destruct (loop_body existing st item) as [st' ex]. simpl in *. subst ex.
  destruct (IH (λ t p Hel, Hfmt t p (list_elem_of_further _ _ _ Hel)) st')
    as [-> ->].
  split; [done|]. rewrite Hcalls, <- app_assoc. f_equal.
  symmetry. apply attempts_cons.
Qed.

Lemma attempts_task_ids existing dataset :
  (∀ task_id problem, (task_id, problem) ∈ dataset → task_id ∉ existing →
                      ∃ prompt, get_formatted_prompt problem = Returned prompt) →
  (Runner.attempts get_formatted_prompt existing dataset).*1
  = (filter (λ item : value * record, item.1 ∉ existing) dataset).*1.
Proof.
  induction dataset as [|[t p] rest IH]; intros Hfmt; [done|].
  unfold Runner.attempts in *. simpl. case_bool_decide as Hin.
  - rewrite filter_cons_False by (simpl; auto).
    apply IH. intros t' p' Hel. apply (Hfmt t' p'). by right.
  - rewrite filter_cons_True by done.
    destruct (Hfmt t p) as [prompt ->]; [left|done|]. simpl. f_equal.
    apply IH. intros t' p' Hel. apply (Hfmt t' p'). by right.
Qed.

(** C3, as amended (failure containment).  An exception of the provider
    call or of the extraction is caught in the iteration: the error Result
    with the sentinel strings is built, the failure is logged, the file is
    written and the iteration ends normally.  So when the prompt of every
    task that is not skipped gets built, the run ends normally whatever the
    provider and the extractor do, and the provider was called exactly once
    for each task that is not skipped, in the order of the dataset.  An
    exception of the formatter is raised before the [try]: it leaves the
    iteration, and the run, uncaught. *)
Theorem failure_containment file0 p0 dataset :
  let existing := Runner.exising_task_ids (Runner.load_existing_jsonl file0) in
  (∀ task_id problem, (task_id, problem) ∈ dataset → task_id ∉ existing →
                      ∃ prompt, get_formatted_prompt problem = Returned prompt) →
  let final := (main file0 p0 dataset).1 in
  (main file0 p0 dataset).2 = Runner.Normal
  ∧ Runner.calls_of (Runner.trace final)
    = Runner.attempts get_formatted_prompt existing dataset
  ∧ (Runner.calls_of (Runner.trace final)).*1
    = (filter (λ item : value * record, item.1 ∉ existing) dataset).*1
  ∧ (∀ st task_id problem prompt p' e,
        task_id ∉ existing →
        get_formatted_prompt problem = Returned prompt →
        attempt (Runner.provider st) prompt = (p', Raised e) →
        loop_body existing st (task_id, problem)
        = (Runner.write_jsonl
             (Runner.State (Runner.results st) (Runner.out_file st) p'
                (Some (Runner.make_result problem task_id
                         "Error encountered" "Error encountered" prompt))
                (Runner.trace st
                   ++ [Runner.Called task_id prompt; Runner.Failed task_id e])),
           Runner.Normal))
  ∧ (∀ st task_id problem e,
        task_id ∉ existing →
        get_formatted_prompt problem = Raised e →
        loop_body existing st (task_id, problem) = (st, Runner.Uncaught e)).
Proof.
  intros existing Hfmt final.
  destruct (run_loop_attempts existing dataset Hfmt
              (Runner.State (Runner.load_existing_jsonl file0) file0 p0 None []))
    as [Hnormal Hcalls].
  change (run_loop existing _ dataset) with (main file0 p0 dataset) in Hnormal, Hcalls.
  simpl in Hcalls.
  split_and!; [exact Hnormal|exact Hcalls| | |].
  - subst final. rewrite Hcalls. by apply attempts_task_ids.
  - intros st task_id problem prompt p' e Hin Hp Ha.
    rewrite (loop_body_raised _ _ _ _ _ _ _ Hin Hp Ha).
    by rewrite <- app_assoc.
  - intros st task_id problem e Hin He. by apply loop_body_prompt_raises.
Qed.

End HarnessProperties.

(** ** The properties on the small run *)

Lemma failed_task_not_persisted_witness :
  let st' :=
    (Runner.loop_body Scenario.get_completion Scenario.get_formatted_prompt
       Scenario.extract_code "human-eval" ∅ Scenario.start
       (VStr "t2", Scenario.problem "p2")).1 in
  let err := Runner.error_result (Scenario.problem "p2") (VStr "t2") "p2" in
  Runner.result st' = Some err
  ∧ err !! "completion" = Some (VStr "Error encountered")
  ∧ err !! "raw_completion" = Some (VStr "Error encountered")
  ∧ Runner.results st' = []
  ∧ Runner.out_file st' = Some []
  ∧ Runner.load_existing_jsonl (Runner.out_file st') = [].
Proof.
  apply (failed_task_not_persisted Scenario.get_completion
           Scenario.get_formatted_prompt Scenario.extract_code "human-eval"
           ∅ Scenario.start (VStr "t2") (Scenario.problem "p2") "p2" 1
           (Exception "provider unavailable")).
  - apply not_elem_of_empty.
  - reflexivity.
  - left. reflexivity.
  - reflexivity.
Defined.

Lemma extraction_gating_witness :
  ∃ res : record,
    Runner.results
      (Runner.loop_body Scenario.get_completion Scenario.get_formatted_prompt
         Scenario.extract_code "human-eval" ∅ Scenario.start
         (VStr "t1", Scenario.problem "p1")).1 = [] ++ [res]
    ∧ Runner.out_file
        (Runner.loop_body Scenario.get_completion Scenario.get_formatted_prompt
           Scenario.extract_code "human-eval" ∅ Scenario.start
           (VStr "t1", Scenario.problem "p1")).1 = Some ([] ++ [res])
    ∧ res !! "completion" = Some (VStr "print(1)")
    ∧ res !! "raw_completion" = Some (VStr "```print(1)```").
Proof.
  apply (extraction_gating Scenario.get_completion Scenario.get_formatted_prompt
           Scenario.extract_code "human-eval" ∅ Scenario.start (VStr "t1")
           (Scenario.problem "p1") "p1" 1 "```print(1)```" "print(1)").
  - apply not_elem_of_empty.
  - reflexivity.
  - reflexivity.
  - left. split; [apply list_elem_of_here|reflexivity].
Defined.

Lemma keyless_record_kept_witness :
  let loaded := Runner.load_existing_jsonl Scenario.edited_file in
  let final :=
    (Runner.main Scenario.get_completion Scenario.get_formatted_prompt
       Scenario.extract_code "human-eval" Scenario.edited_file 0 Scenario.dataset).1 in
  (∀ l1 l2, loaded = l1 ++ Scenario.note :: l2 →
            Runner.exising_task_ids loaded = Runner.exising_task_ids (l1 ++ l2))
  ∧ Scenario.note ∈ Runner.results final
  ∧ (∀ rs, Runner.Wrote rs ∈ Runner.trace final → Scenario.note ∈ rs)
  ∧ Scenario.note ∈ Runner.load_existing_jsonl (Runner.out_file final).
Proof.
  apply (keyless_record_kept Scenario.get_completion Scenario.get_formatted_prompt
           Scenario.extract_code "human-eval" Scenario.edited_file 0
           Scenario.dataset Scenario.note).
  - apply list_elem_of_here.
  - reflexivity.
Defined.

Lemma failure_containment_witness :
  let final :=
    (Runner.main Scenario.get_completion Scenario.get_formatted_prompt
       Scenario.extract_code "human-eval" None 0 Scenario.failing_first) in
  final.2 = Runner.Normal
  ∧ Runner.calls_of (Runner.trace final.1) = [(VStr "t2", "p2"); (VStr "t1", "p1")].
Proof.
  destruct (failure_containment Scenario.get_completion
              Scenario.get_formatted_prompt Scenario.extract_code "human-eval"
              None 0 Scenario.failing_first) as (Hnormal & Hcalls & _).
  - intros task_id problem Hel _.
    apply elem_of_cons in Hel as [[= -> ->]|Hel]; [by eexists|].
    apply elem_of_cons in Hel as [[= -> ->]|Hel]; [by eexists|].
    by apply elem_of_nil in Hel.
  - split; [exact Hnormal|]. rewrite Hcalls. reflexivity.
Defined.

(** C7, as the spec states it, fails: with no file at startup and no task,
    nothing is written, so the file is not created; it is as absent at the
    end as it was at the start. *)
Lemma empty_dataset_creates_no_file :
  Runner.out_file
    (Runner.main Scenario.get_completion Scenario.get_formatted_prompt
       Scenario.extract_code "human-eval" None 0 []).1 = None
  ∧ Runner.writes_of
      (Runner.trace
         (Runner.main Scenario.get_completion Scenario.get_formatted_prompt
            Scenario.extract_code "human-eval" None 0 []).1) = []
  ∧ (Runner.main Scenario.get_completion Scenario.get_formatted_prompt
       Scenario.extract_code "human-eval" None 0 []).2 = Runner.Normal.
Proof. split_and!; reflexivity. Qed.

(** C3, as the spec states it, fails: an exception while the prompt is built
    is raised outside of the [try].  Here the formatter raises on the first
    task; the exception leaves the script, no error Result is built, nothing
    is logged or written, and the second task is never reached. *)
Lemma prompt_failure_aborts_run :
  Runner.main Scenario.get_completion Scenario.get_formatted_prompt
    Scenario.extract_code "human-eval" None 0 Scenario.broken_dataset
  = (Runner.State [] None 0 None [], Runner.Uncaught (Exception "KeyError: 'prompt'")).
Proof. reflexivity. Qed.

(** The spec's scenario: the answer for [t1] is kept with its code
    extracted, the failure of [t2] is logged, and the run ends normally. *)
Example scenario_t1_answers_t2_fails :
  Runner.main Scenario.get_completion Scenario.get_formatted_prompt
    Scenario.extract_code "human-eval" None 0 Scenario.dataset
  = (Runner.State [Scenario.done_t1] (Some [Scenario.done_t1]) 2
       (Some (Runner.error_result (Scenario.problem "p2") (VStr "t2") "p2"))
       [Runner.Called (VStr "t1") "p1"; Runner.Wrote [Scenario.done_t1];
        Runner.Called (VStr "t2") "p2";
        Runner.Failed (VStr "t2") (Exception "provider unavailable");
        Runner.Wrote [Scenario.done_t1]],
     Runner.Normal).
Proof. reflexivity. Qed.

(** The spec's other scenario: [t1] is in the file, so only [t2] reaches the
    provider. *)
Example scenario_resume :
  Runner.calls_of
    (Runner.trace
       (Runner.main Scenario.get_completion Scenario.get_formatted_prompt
          Scenario.extract_code "human-eval" Scenario.edited_file 0
          Scenario.dataset).1)
  = [(VStr "t2", "p2")].
Proof. reflexivity. Qed.

(** ** Paths *)

Lemma string_app_nil_l (s : string) : "" +:+ s = s.
Proof. reflexivity. Qed.

Lemma string_app_cons (c : Ascii.ascii) (a b : string) :
  String c a +:+ b = String c (a +:+ b).
Proof. reflexivity. Qed.

Lemma string_app_assoc (a b c : string) : (a +:+ b) +:+ c = a +:+ (b +:+ c).
Proof.
  induction a as [|x a IH]; [done|].
  by rewrite !string_app_cons, IH.
Qed.

Lemma string_app_nonempty (a b : string) : b ≠ "" → a +:+ b ≠ "".
Proof. destruct a; [done|]. by rewrite string_app_cons. Qed.

Lemma endswith_sep_app (a b : string) :
  b ≠ "" → Py.endswith (a +:+ b) "/" = Py.endswith b "/".
Proof.
  intros Hb. induction a as [|x a IH]; [done|].
  rewrite string_app_cons. simpl. rewrite IH.
  apply (string_app_nonempty a) in Hb.
  rewrite bool_decide_eq_false_2; [done|]. by intros [= _ ?].
Qed.

Lemma open_ended_app (a b : string) :
  Py.open_ended b = true → Py.open_ended (a +:+ b) = true.
Proof.
  unfold Py.open_ended. intros [Hne Hend]%andb_true_iff.
  apply negb_true_iff, bool_decide_eq_false in Hne.
  rewrite endswith_sep_app, Hend by done.
  rewrite bool_decide_eq_false_2; [done|]. by apply string_app_nonempty.
Qed.

(** Joining a relative component to a path that is not empty and does not
    end with the separator puts the separator between them. *)
Lemma join_step_relative (path b : string) :
  Py.open_ended path = true → Py.relative b = true →
  Py.join_step path b = path +:+ "/" +:+ b.
Proof.
  unfold Py.open_ended, Py.relative, Py.join_step.
  intros [Hne Hend]%andb_true_iff Hrel.
  apply negb_true_iff in Hne, Hend, Hrel. by rewrite Hrel, Hne, Hend.
Qed.

(** A component that starts with the separator replaces the path. *)
Lemma join_step_absolute (path b : string) :
  Py.relative b = false → Py.join_step path b = b.
Proof.
  unfold Py.relative, Py.join_step. intros Hrel%negb_false_iff. by rewrite Hrel.
Qed.

Lemma endswith_app (a suffix : string) : Py.endswith (a +:+ suffix) suffix = true.
Proof.
  induction a as [|x a IH].
  - rewrite string_app_nil_l.
    destruct suffix; simpl; [done|by rewrite bool_decide_eq_true_2].
  - rewrite string_app_cons. simpl. rewrite IH. by case_bool_decide.
Qed.

(** [rstrip] takes a set of characters, not a suffix: it goes on past the
    extension while the characters are among [. j s o n l]. *)
Example rstrip_takes_characters : Py.rstrip "results.jsonl" ".jsonl" = "result".
Proof. reflexivity. Qed.

Example rstrip_extension_only :
  Py.rstrip "openai_human-eval__version_eq_0.1.0.jsonl" ".jsonl"
  = "openai_human-eval__version_eq_0.1.0".
Proof. reflexivity. Qed.

Section OutputPathProperties.

Variable get_root_dir : string.
Variable prep_for_file_path : string → string.
Variable OUTPUT_FILE_NAME_format :
  string → string → string → string → string → string → string.
Variable str_float : float → string.

Local Abbreviation output_dir := (Runner.output_dir get_root_dir prep_for_file_path).
Local Abbreviation output_file_name :=
  (Runner.output_file_name prep_for_file_path OUTPUT_FILE_NAME_format str_float).
Local Abbreviation get_output_path :=
  (Runner.get_output_path get_root_dir prep_for_file_path OUTPUT_FILE_NAME_format
     str_float).

Lemma component_open_ended (s : string) :
  Py.component s = true → Py.open_ended ("/" +:+ s) = true.
Proof.
  unfold Py.component. intros [_ Hopen]%andb_true_iff. by apply open_ended_app.
Qed.

Lemma join_step_component (path b : string) :
  Py.open_ended path = true → Py.component b = true →
  Py.join_step path b = path +:+ "/" +:+ b
  ∧ Py.open_ended (path +:+ "/" +:+ b) = true.
Proof.
  intros Hpath Hb. split.
  - apply join_step_relative; [done|].
    unfold Py.component in Hb. by apply andb_true_iff in Hb as [? _].
  - by apply open_ended_app, component_open_ended.
Qed.

(** The directory, when the root and the three sanitised names are what
    path components should be. *)
Lemma output_dir_components args :
  Py.open_ended get_root_dir = true →
  Py.component (prep_for_file_path (argparse.provider args)) = true →
  Py.component (prep_for_file_path (argparse.pset args)) = true →
  Py.component (prep_for_file_path (argparse.model args)) = true →
  output_dir args
  = String.concat "/"
      [get_root_dir; "results";
       prep_for_file_path (argparse.provider args);
       prep_for_file_path (argparse.pset args);
       prep_for_file_path (argparse.model args)]
  ∧ Py.open_ended (output_dir args) = true.
Proof.
  intros Hroot Hprovider Hpset Hmodel.
  unfold Runner.output_dir, Py.os_path_join. simpl.
  destruct (join_step_component get_root_dir "results" Hroot eq_refl) as [-> H1].
  destruct (join_step_component _ _ H1 Hprovider) as [-> H2].
  destruct (join_step_component _ _ H2 Hpset) as [-> H3].
  destruct (join_step_component _ _ H3 Hmodel) as [-> H4].
  split; [|done]. by rewrite !string_app_assoc.
Qed.

(** C6, as amended (output path).  With a root and sanitised names that are
    path components, the directory is
    [<root>/results/<provider>/<pset>/<model>]; it exists afterwards, and
    nothing else is created.  The derived file name is the template filled
    with the six sanitised fields, stripped on the right, then
    ["_py-interpreter"] if and only if the flag is set, then [".jsonl"].
    The file name is the one the user gave unless that is missing or empty.
    The path is the file name joined to the directory if the file name does
    not start with the separator, and the file name alone if it does. *)
Theorem output_path_derivation args version paths :
  Py.open_ended get_root_dir = true →
  Py.component (prep_for_file_path (argparse.provider args)) = true →
  Py.component (prep_for_file_path (argparse.pset args)) = true →
  Py.component (prep_for_file_path (argparse.model args)) = true →
  let derived := output_file_name args version in
  let name := Py.str_or (argparse.output_file_name args) derived in
  let dir :=
    String.concat "/"
      [get_root_dir; "results";
       prep_for_file_path (argparse.provider args);
       prep_for_file_path (argparse.pset args);
       prep_for_file_path (argparse.model args)] in
  let stem :=
    Py.rstrip
      (OUTPUT_FILE_NAME_format
         (prep_for_file_path (argparse.provider args))
         (prep_for_file_path (argparse.pset args))
         (prep_for_file_path (argparse.model args))
         (prep_for_file_path (str_float (argparse.temperature args)))
         (prep_for_file_path (argparse.quantization args))
         (prep_for_file_path version))
      ".jsonl" in
  let out := get_output_path args version paths in
  out.1 = (if Py.relative name then dir +:+ "/" +:+ name else name)
  ∧ dir ∈ out.2
  ∧ out.2 = (if bool_decide (dir ∈ paths) then paths else {[dir]} ∪ paths)
  ∧ derived
    = stem +:+ (if argparse.py_interpreter args then "_py-interpreter" else "")
        +:+ ".jsonl"
  ∧ Py.endswith derived ".jsonl" = true
  ∧ (∀ s, argparse.output_file_name args = Some s → s ≠ "" → name = s)
  ∧ (argparse.output_file_name args = None
     ∨ argparse.output_file_name args = Some "" → name = derived).
Proof.
  intros Hroot Hprovider Hpset Hmodel derived name dir stem out.
  destruct (output_dir_components args Hroot Hprovider Hpset Hmodel)
    as [Hdir Hopen].
  fold dir in Hdir. subst out. unfold Runner.get_output_path. simpl.
  fold derived. fold name. rewrite Hdir in *.
  split_and!.
  - destruct (Py.relative name) eqn:Hname.
    + by apply join_step_relative.
    + by apply join_step_absolute.
  - case_bool_decide; [done|]. unfold Py.os_makedirs. set_solver.
  - done.
  - done.
  - subst derived. unfold Runner.output_file_name.
    rewrite <- string_app_assoc. apply endswith_app.
  - intros s Hs Hne. subst name. rewrite Hs. simpl.
    by rewrite bool_decide_eq_false_2.
  - intros [Hs|Hs]; subst name; by rewrite Hs.
Qed.

End OutputPathProperties.

Lemma output_path_derivation_witness :
  (Runner.get_output_path Scenario.get_root_dir Scenario.prep_for_file_path
     Scenario.OUTPUT_FILE_NAME_format Scenario.str_float
     (Scenario.args true None) "0.1.0" ∅).1
  = "/repo/results/openai/human-eval/gpt-4"
      +:+ "/"
      +:+ "openai_human-eval__model_eq_gpt-4__temperature_eq_0.7__quantization_eq_float16__version_eq_0.1.0_py-interpreter.jsonl".
Proof.
  destruct (output_path_derivation Scenario.get_root_dir
              Scenario.prep_for_file_path Scenario.OUTPUT_FILE_NAME_format
              Scenario.str_float (Scenario.args true None) "0.1.0" ∅)
    as [Hpath _]; [reflexivity..|].
  exact Hpath.
Defined.

(** C6, as the spec states it, fails: a file name that starts with the
    separator replaces the directory too. *)
Lemma absolute_output_file_name_replaces_directory :
  Runner.output_dir Scenario.get_root_dir Scenario.prep_for_file_path
    (Scenario.args false (Some "/tmp/out.jsonl"))
  = "/repo/results/openai/human-eval/gpt-4"
  ∧ (Runner.get_output_path Scenario.get_root_dir Scenario.prep_for_file_path
       Scenario.OUTPUT_FILE_NAME_format Scenario.str_float
       (Scenario.args false (Some "/tmp/out.jsonl")) "0.1.0" ∅).1
    = "/tmp/out.jsonl"
  ∧ Py.startswith "/tmp/out.jsonl" "/repo/results/openai/human-eval/gpt-4" = false.
Proof. split_and!; reflexivity. Qed.

(** A relative file name of the user stays in the directory. *)
Example relative_output_file_name :
  (Runner.get_output_path Scenario.get_root_dir Scenario.prep_for_file_path
     Scenario.OUTPUT_FILE_NAME_format Scenario.str_float
     (Scenario.args false (Some "mine.jsonl")) "0.1.0" ∅).1
  = "/repo/results/openai/human-eval/gpt-4/mine.jsonl".
Proof. reflexivity. Qed.

(** ** The local Wizard model *)

Section WizardModelProperties.

Context {Quantization Kwargs Tokenizer Weights Tensor : Type}.
Context `{EqDecision Quantization}.
Variable Quantization_float16 : Quantization.
Variable quantization_to_kwargs : Quantization → Kwargs.
Variable LlamaTokenizer_from_pretrained : string → string → Kwargs → Tokenizer.
Variable LlamaForCausalLM_from_pretrained :
  string → WizardModel.torch_dtype → string → Weights.
Variable tokenizer_eos_token_id tokenizer_pad_token_id : Tokenizer → option Z.
Variable tokenize : Tokenizer → string → string → Tensor.
Variable generate : Weights → Tensor → transformers.GenerationConfig → Z → Tensor.
Variable tensor_to : Tensor → string → Tensor.
Variable decode : Tokenizer → Tensor → string.

Local Abbreviation __init__ :=
  (WizardModel.__init__ Quantization_float16 quantization_to_kwargs
     LlamaTokenizer_from_pretrained LlamaForCausalLM_from_pretrained).
Local Abbreviation get_completion :=
  (WizardModel.get_completion tokenizer_eos_token_id tokenizer_pad_token_id
     tokenize generate tensor_to decode).

Lemma int_or_spec (x : option Z) (y : Z) :
  Py.int_or x y = y ∧ (x = None ∨ x = Some 0%Z)
  ∨ Some (Py.int_or x y) = x ∧ Py.int_or x y ≠ 0%Z.
Proof.
  destruct x as [n|]; simpl; [|by auto].
  case_bool_decide; [subst; by auto|by auto].
Qed.

(** C8 (decoding configuration).  The constructor picks ["cuda"] if an
    accelerator is available and ["cpu"] otherwise, loads the tokenizer and
    then the weights of the model it is given, and keeps the temperature it
    is given and as [max_new_tokens] the value it is given, or 384 when that
    is missing or 0.  A call of [get_completion] on the object it builds
    generates, with these weights, on this device and from the prompt as this
    tokenizer reads it, with that temperature, top_p 0.9, top_k 40, one beam,
    sampling, and that [max_new_tokens]. *)
Theorem decoding_configuration env model_name quantization temperature stream
    max_new_tokens prompt :
  let built :=
    __init__ env model_name quantization temperature stream max_new_tokens in
  let self := built.1 in
  let device := if WizardModel.cuda_is_available env then "cuda" else "cpu" in
  let token := default "" (WizardModel.HF_TOKEN env) in
  let dtype :=
    if bool_decide (quantization = Quantization_float16)
    then WizardModel.torch_float16 else WizardModel.torch_bfloat16 in
  let tokenizer :=
    LlamaTokenizer_from_pretrained model_name token
      (quantization_to_kwargs quantization) in
  let weights := LlamaForCausalLM_from_pretrained model_name dtype token in
  let limit :=
    match max_new_tokens with
    | Some n => if bool_decide (n = 0%Z) then 384%Z else n
    | None => 384%Z
    end in
  let config : transformers.GenerationConfig :=
    {| transformers.temperature := temperature;
       transformers.top_p := QArith_base.Qmake 9 10;
       transformers.top_k := 40;
       transformers.num_beams := 1;
       transformers.eos_token_id := tokenizer_eos_token_id tokenizer;
       transformers.pad_token_id := tokenizer_pad_token_id tokenizer;
       transformers.do_sample := true |} in
  WizardModel.device self = device
  ∧ WizardModel.tokenizer self = tokenizer
  ∧ WizardModel.model self = weights
  ∧ built.2 = [WizardModel.LoadTokenizer model_name;
               WizardModel.LoadWeights model_name dtype]
  ∧ WizardModel.temperature self = temperature
  ∧ WizardModel.max_new_tokens self = limit
  ∧ (Some (WizardModel.max_new_tokens self) = max_new_tokens
     ∨ WizardModel.max_new_tokens self = 384%Z)
  ∧ WizardModel.generation_config tokenizer_eos_token_id tokenizer_pad_token_id self
    = config
  ∧ get_completion self prompt
    = decode tokenizer
        (tensor_to (generate weights (tokenize tokenizer prompt device) config limit)
           device).
Proof.
  intros built self device token dtype tokenizer weights limit config.
  split_and!; try done.
  subst self built. simpl.
  destruct (int_or_spec max_new_tokens WizardModel.MAX_NEW_TOKENS)
    as [[-> _]|[-> _]]; by auto.
Qed.

(** C10 (falsy [max_new_tokens]).  Without the argument, with [None] and
    with [0] the object gets the class default 384; any other integer is
    kept. *)
Theorem falsy_max_new_tokens env model_name quantization temperature stream :
  let built := λ max_new_tokens,
    (__init__ env model_name quantization temperature stream max_new_tokens).1 in
  WizardModel.max_new_tokens (built None) = 384%Z
  ∧ WizardModel.max_new_tokens (built (Some 0%Z)) = 384%Z
  ∧ (∀ n : Z, n ≠ 0%Z → WizardModel.max_new_tokens (built (Some n)) = n).
Proof.
  intros built. split_and!; [done|done|].
  intros n Hn. subst built. simpl. by rewrite bool_decide_eq_false_2.
Qed.

End WizardModelProperties.

(** * Further properties of the run *)

Section HarnessFurtherProperties.

Context {provider_state : Type}.
Variable get_completion : provider_state → string → provider_state * outcome string.
Variable get_formatted_prompt : record → outcome string.
Variable extract_code : string → outcome string.
Variable pset : string.

Local Abbreviation state := (@Runner.state provider_state).
Local Abbreviation attempt := (Runner.attempt get_completion extract_code pset).
Local Abbreviation loop_body :=
  (Runner.loop_body get_completion get_formatted_prompt extract_code pset).
Local Abbreviation run_loop :=
  (Runner.run_loop get_completion get_formatted_prompt extract_code pset).
Local Abbreviation main :=
  (Runner.main get_completion get_formatted_prompt extract_code pset).

Implicit Types (st : state) (existing : gset value) (task_id : value)
  (problem : record) (dataset : list (value * record)).

Lemma run_loop_cons existing item dataset st :
  run_loop existing st (item :: dataset)
  = match loop_body existing st item with
    | (st', Runner.Normal) => run_loop existing st' dataset
    | (st', Runner.Uncaught e) => (st', Runner.Uncaught e)
    end.
Proof. reflexivity. Qed.

(** The loop over two datasets in a row. *)
Lemma run_loop_app existing dataset1 dataset2 st :
  run_loop existing st (dataset1 ++ dataset2)
  = match run_loop existing st dataset1 with
    | (st1, Runner.Normal) => run_loop existing st1 dataset2
    | (st1, Runner.Uncaught e) => (st1, Runner.Uncaught e)
    end.
Proof.
  revert st. induction dataset1 as [|item rest IH]; intros st; [done|].
  rewrite <- app_comm_cons, !run_loop_cons.
  destruct (loop_body existing st item) as [st' [|e]]; [apply IH|done].
Qed.

(** An iteration only adds: to the list in memory and to the events. *)
Lemma loop_body_grows existing st item :
  Runner.results st `prefix_of` Runner.results (loop_body existing st item).1
  ∧ Runner.trace st `prefix_of` Runner.trace (loop_body existing st item).1.
Proof.
  destruct item as [task_id problem].
  destruct (loop_body_cases get_completion get_formatted_prompt extract_code pset
              existing st task_id problem)
    as [[Hin ->]|[[Hin (e & _ & ->)]|[[Hin (prompt & p' & c & raw & _ & _ & ->)]
       |[Hin (prompt & p' & e & _ & _ & ->)]]]]; simpl.
  - split; [done|by apply prefix_app_r].
  - done.
  - split; [by apply prefix_app_r|]. rewrite <- app_assoc. by apply prefix_app_r.
  - split; [done|]. rewrite <- !app_assoc. by apply prefix_app_r.
Qed.

Lemma run_loop_grows existing dataset st :
  Runner.results st `prefix_of` Runner.results (run_loop existing st dataset).1
  ∧ Runner.trace st `prefix_of` Runner.trace (run_loop existing st dataset).1.
Proof.
  apply (run_loop_invariant get_completion get_formatted_prompt extract_code pset
           (λ st', Runner.results st `prefix_of` Runner.results st'
                   ∧ Runner.trace st `prefix_of` Runner.trace st')); [|done].
  intros st' item [Hr Ht].
  destruct (loop_body_grows existing st' item) as [Hr' Ht'].
  split; by etrans.
Qed.

Lemma exising_task_ids_prefix (l1 l2 : list record) :
  l1 `prefix_of` l2 → Runner.exising_task_ids l1 ⊆ Runner.exising_task_ids l2.
Proof. intros [k ->]. rewrite exising_task_ids_app. apply union_subseteq_l. Qed.

Lemma exising_task_ids_snoc_result (rs : list record) problem task_id c raw prompt :
  Runner.exising_task_ids (rs ++ [Runner.make_result problem task_id c raw prompt])
  = Runner.exising_task_ids rs ∪ {[task_id]}.
Proof.
  rewrite exising_task_ids_app. f_equal. apply set_eq. intros x.
  rewrite elem_of_exising_task_ids, elem_of_singleton. split.
  - intros (r & ->%list_elem_of_singleton & Hr).
    rewrite make_result_task_id in Hr. congruence.
  - intros ->. eexists. split; [by apply list_elem_of_singleton|].
    apply make_result_task_id.
Qed.

(** After a run that ends normally, a task of the dataset was in the skip
    set, or its record is in the list in memory, or its failure is among the
    events. *)
Lemma run_loop_accounts existing dataset :
  ∀ st, (run_loop existing st dataset).2 = Runner.Normal →
  ∀ task_id problem, (task_id, problem) ∈ dataset →
    task_id ∈ existing
    ∨ task_id ∈ Runner.exising_task_ids (Runner.results (run_loop existing st dataset).1)
    ∨ (∃ e, Runner.Failed task_id e ∈ Runner.trace (run_loop existing st dataset).1).
Proof.
  induction dataset as [|[t p] rest IH]; intros st Hnormal task_id problem Hel.
  { by apply elem_of_nil in Hel. }
  rewrite run_loop_cons in *.
  destruct (loop_body_cases get_completion get_formatted_prompt extract_code pset
              existing st t p)
    as [[Hin Hb]|[[Hin (e & _ & Hb)]|[[Hin (prompt & p' & c & raw & _ & _ & Hb)]
       |[Hin (prompt & p' & e & _ & _ & Hb)]]]];
    rewrite Hb in *; cbv zeta in *; [| done | |];
    (apply elem_of_cons in Hel as [[= -> ->]|Hel]; [|by eapply IH]).
  - by left.
  - right. left.
    eapply exising_task_ids_prefix; [apply run_loop_grows|]. simpl.
    rewrite exising_task_ids_snoc_result. set_solver.
  - right. right. exists e.
    eapply elem_of_prefix; [|apply run_loop_grows]. simpl.
    rewrite !elem_of_app, !list_elem_of_singleton. naive_solver.
Qed.

(** A provider call of the loop is for a task of the dataset that is not in
    the skip set, with the prompt that the formatter built for it. *)
Lemma run_loop_called existing dataset :
  ∀ st task_id prompt,
    Runner.Called task_id prompt ∈ Runner.trace (run_loop existing st dataset).1 →
    Runner.Called task_id prompt ∈ Runner.trace st
    ∨ (∃ problem, (task_id, problem) ∈ dataset ∧ (task_id ∉ existing)
                  ∧ get_formatted_prompt problem = Returned prompt).
Proof.
  induction dataset as [|[t p] rest IH]; intros st task_id prompt Hcall; [by left|].
  rewrite run_loop_cons in Hcall.
  assert (Runner.Called task_id prompt ∈ Runner.trace (loop_body existing st (t, p)).1
          ∨ (∃ problem, (task_id, problem) ∈ rest ∧ (task_id ∉ existing)
                        ∧ get_formatted_prompt problem = Returned prompt)) as Hstep.
  { destruct (loop_body existing st (t, p)) as [st' [|e]]; [|by left].
    apply IH in Hcall as [?|?]; auto. }
  destruct Hstep as [Hstep|(problem & Hel & ? & ?)].
  2:{ right. exists problem. split; [by right|done]. }
  destruct (loop_body_cases get_completion get_formatted_prompt extract_code pset
              existing st t p)
    as [[Hin Hb]|[[Hin (e & _ & Hb)]|[[Hin (q & p' & c & raw & Hp & _ & Hb)]
       |[Hin (q & p' & e & Hp & _ & Hb)]]]];
    rewrite Hb in Hstep; simpl in Hstep.
  - apply elem_of_app in Hstep as [?|[=]%list_elem_of_singleton]. by left.
  - by left.
  - apply elem_of_app in Hstep as [Hstep|[=]%list_elem_of_singleton].
    apply elem_of_app in Hstep as [?|[= -> ->]%list_elem_of_singleton]; [by left|].
    right. exists p. split; [by left|done].
  - apply elem_of_app in Hstep as [Hstep|[=]%list_elem_of_singleton].
    apply elem_of_app in Hstep as [Hstep|[=]%list_elem_of_singleton].
    apply elem_of_app in Hstep as [?|[= -> ->]%list_elem_of_singleton]; [by left|].
    right. exists p. split; [by left|done].
Qed.

(** The loop over tasks that are all in the skip set. *)
Lemma run_loop_all_skipped existing dataset :
  Forall (λ item : value * record, item.1 ∈ existing) dataset →
  ∀ st,
    run_loop existing st dataset
    = (Runner.State (Runner.results st) (Runner.out_file st) (Runner.provider st)
         (Runner.result st) (Runner.trace st ++ (Runner.Skipped <$> dataset.*1)),
       Runner.Normal).
Proof.
  induction 1 as [|[t p] rest Hin _ IH]; intros st.
  { simpl. rewrite app_nil_r. by destruct st. }
  rewrite run_loop_cons.
  rewrite (loop_body_skip get_completion get_formatted_prompt extract_code pset
             existing st t p Hin).
  rewrite IH. simpl. by rewrite <- app_assoc.
Qed.

Lemma failures_of_nil (tr : list Runner.event) task_id e :
  Runner.failures_of tr = [] → Runner.Failed task_id e ∉ tr.
Proof.
  intros Hnil Hel.
  assert ((task_id, e) ∈ Runner.failures_of tr) as Hin.
  { unfold Runner.failures_of. apply list_elem_of_omap. by eexists. }
  rewrite Hnil in Hin. by apply elem_of_nil in Hin.
Qed.

(** The accounts of an iteration: one write for each provider call, and for
    each call one record more or one failure more. *)
Lemma loop_body_counts existing st item :
  let st' := (loop_body existing st item).1 in
  length (Runner.writes_of (Runner.trace st'))
  + length (Runner.calls_of (Runner.trace st))
  = length (Runner.writes_of (Runner.trace st))
    + length (Runner.calls_of (Runner.trace st'))
  ∧ length (Runner.results st') + length (Runner.failures_of (Runner.trace st'))
    + length (Runner.calls_of (Runner.trace st))
    = length (Runner.results st) + length (Runner.failures_of (Runner.trace st))
      + length (Runner.calls_of (Runner.trace st')).
Proof.
  destruct item as [task_id problem]. intros st'. subst st'.
  unfold Runner.writes_of, Runner.calls_of, Runner.failures_of.
  destruct (loop_body_cases get_completion get_formatted_prompt extract_code pset
              existing st task_id problem)
    as [[Hin ->]|[[Hin (e & _ & ->)]|[[Hin (prompt & p' & c & raw & _ & _ & ->)]
       |[Hin (prompt & p' & e & _ & _ & ->)]]]]; simpl;
    rewrite ?omap_app, ?length_app; simpl; lia.
Qed.

Lemma filter_eq_fst_filter existing task_id dataset :
  task_id ∉ existing →
  filter (λ t, t = task_id)
    (filter (λ item : value * record, item.1 ∉ existing) dataset).*1
  = filter (λ t, t = task_id) dataset.*1.
Proof.
  intros Hin. induction dataset as [|[t p] rest IH]; [done|].
  rewrite fmap_cons, (filter_cons (λ t0, t0 = task_id) t).
  rewrite (filter_cons _ (t, p)). simpl.
  destruct (decide (t ∉ existing)) as [Ht|Ht].
  - rewrite fmap_cons, (filter_cons (λ t0, t0 = task_id) t). simpl.
    by rewrite IH.
  - rewrite IH. destruct (decide (t = task_id)) as [->|_]; [|done].
    by destruct Ht.
Qed.

(** The records that the loop appends, in the order of the dataset. *)
Lemma run_loop_appends_in_order existing dataset :
  ∀ st, ∃ (new : list record) (ids : list value),
    Runner.results (run_loop existing st dataset).1 = Runner.results st ++ new
    ∧ (λ r : record, r !! "task_id") <$> new = Some <$> ids
    ∧ ids `sublist_of`
        (filter (λ item : value * record, item.1 ∉ existing) dataset).*1.
Proof.
  induction dataset as [|[t p] rest IH]; intros st.
  { exists [], []. by rewrite app_nil_r. }
  rewrite run_loop_cons.
  destruct (loop_body_cases get_completion get_formatted_prompt extract_code pset
              existing st t p)
    as [[Hin ->]|[[Hin (e & _ & ->)]|[[Hin (prompt & p' & c & raw & _ & _ & ->)]
       |[Hin (prompt & p' & e & _ & _ & ->)]]]]; cbv zeta.
  - destruct (IH (Runner.log (Runner.Skipped t) st)) as (new & ids & Hres & Hids & Hsub).
    exists new, ids. split_and!; [done|done|].
    by rewrite filter_cons_False by (simpl; auto).
  - exists [], []. split_and!; [by rewrite app_nil_r|done|apply sublist_nil_l].
  - match goal with |- context [run_loop existing ?s rest] =>
      destruct (IH s) as (new & ids & Hres & Hids & Hsub) end.
    simpl in Hres.
    exists (Runner.make_result p t c raw prompt :: new), (t :: ids).
    split_and!.
    + by rewrite Hres, <- app_assoc.
    + by rewrite !fmap_cons, make_result_task_id, Hids.
    + rewrite filter_cons_True by done. simpl. by apply sublist_skip.
  - match goal with |- context [run_loop existing ?s rest] =>
      destruct (IH s) as (new & ids & Hres & Hids & Hsub) end.
    simpl in Hres. exists new, ids. split_and!; [done|done|].
    rewrite filter_cons_True by done. simpl. by apply sublist_cons.
Qed.

Lemma all_skipped_run_changes_nothing_aux file0 p0 dataset :
  Forall (λ item : value * record,
            item.1 ∈ Runner.exising_task_ids (Runner.load_existing_jsonl file0))
    dataset →
  main file0 p0 dataset
  = (Runner.State (Runner.load_existing_jsonl file0) file0 p0 None
       (Runner.Skipped <$> dataset.*1),
     Runner.Normal).
Proof.
  intros Hall. unfold Runner.main.
  by rewrite (run_loop_all_skipped _ _ Hall).
Qed.

(** X1.  When building the prompt raises for a task that is not skipped,
    the run ends there with that exception, in the state that the tasks
    before it left: their records are in the list and in the file, and the
    tasks after it are not looked at. *)
Theorem prompt_failure_keeps_earlier_work file0 p0 dataset1 dataset2 task_id
    problem e :
  (main file0 p0 dataset1).2 = Runner.Normal →
  task_id ∉ Runner.exising_task_ids (Runner.load_existing_jsonl file0) →
  get_formatted_prompt problem = Raised e →
  main file0 p0 (dataset1 ++ (task_id, problem) :: dataset2)
  = ((main file0 p0 dataset1).1, Runner.Uncaught e).
Proof.
  unfold Runner.main. intros Hnormal Hin He. rewrite run_loop_app.
  destruct (run_loop _ _ dataset1) as [st1 [|e1]]; [|done]. cbv beta iota.
  rewrite run_loop_cons. simpl in Hin.
  by rewrite (loop_body_prompt_raises get_completion get_formatted_prompt
                extract_code pset _ st1 task_id problem e Hin He).
Qed.

(** X2.  A run over tasks that are all in the loaded file ends normally and
    leaves the list, the file and the provider as they were: it only logs
    one skip for each task. *)
Theorem all_skipped_run_changes_nothing file0 p0 dataset :
  Forall (λ item : value * record,
            item.1 ∈ Runner.exising_task_ids (Runner.load_existing_jsonl file0))
    dataset →
  main file0 p0 dataset
  = (Runner.State (Runner.load_existing_jsonl file0) file0 p0 None
       (Runner.Skipped <$> dataset.*1),
     Runner.Normal).
Proof.
  intros Hall. unfold Runner.main.
  by rewrite (run_loop_all_skipped _ _ Hall).
Qed.

(** X3.  After a run that ended normally, a second run over the same
    dataset that starts from the file the first one left calls the provider
    only for tasks whose attempt failed in the first run. *)
Theorem second_run_calls_failed_only file0 p0 dataset p1 task_id prompt :
  (main file0 p0 dataset).2 = Runner.Normal →
  Runner.Called task_id prompt
  ∈ Runner.trace (main (Runner.out_file (main file0 p0 dataset).1) p1 dataset).1 →
  ∃ e, Runner.Failed task_id e ∈ Runner.trace (main file0 p0 dataset).1.
Proof.
  intros Hnormal Hcall.
  destruct (main_run_invariant get_completion get_formatted_prompt extract_code
              pset file0 p0 dataset) as (Hpre & Hsync & _ & _).
  red in Hsync. unfold Runner.main at 1 in Hcall. rewrite Hsync in Hcall.
  apply run_loop_called in Hcall as [Hcall|(problem & Hel & Hin & _)].
  { by apply elem_of_nil in Hcall. }
  destruct (run_loop_accounts _ dataset _ Hnormal task_id problem Hel)
    as [Hskip|[Hdone|Hfailed]]; [|done|done].
  destruct Hin. by eapply exising_task_ids_prefix.
Qed.

(** X4.  After a run that ended normally without any failure, a second run
    over the same dataset from the file it left skips every task: it calls
    nobody, writes nothing, and leaves list and file as the first run left
    them. *)
Theorem clean_rerun_changes_nothing file0 p0 dataset p1 :
  (main file0 p0 dataset).2 = Runner.Normal →
  Runner.failures_of (Runner.trace (main file0 p0 dataset).1) = [] →
  main (Runner.out_file (main file0 p0 dataset).1) p1 dataset
  = (Runner.State (Runner.results (main file0 p0 dataset).1)
       (Runner.out_file (main file0 p0 dataset).1) p1 None
       (Runner.Skipped <$> dataset.*1),
     Runner.Normal).
Proof.
  intros Hnormal Hclean.
  destruct (main_run_invariant get_completion get_formatted_prompt extract_code
              pset file0 p0 dataset) as (Hpre & Hsync & _ & _).
  red in Hsync. rewrite all_skipped_run_changes_nothing_aux; [by rewrite Hsync|].
  rewrite Hsync. apply Forall_forall. intros [t p] Hel. simpl.
  destruct (run_loop_accounts _ dataset _ Hnormal t p Hel)
    as [Hskip|[Hdone|[e Hfailed]]]; [|done|].
  - by eapply exising_task_ids_prefix.
  - by apply failures_of_nil in Hfailed.
Qed.

(** X5.  However the run ends, the file was written exactly once for each
    provider call (a skipped task writes nothing), and each call has left
    either one record more in the list or one logged failure. *)
Theorem writes_and_records_accounting file0 p0 dataset :
  let final := (main file0 p0 dataset).1 in
  length (Runner.writes_of (Runner.trace final))
  = length (Runner.calls_of (Runner.trace final))
  ∧ length (Runner.results final) + length (Runner.failures_of (Runner.trace final))
    = length (Runner.load_existing_jsonl file0)
      + length (Runner.calls_of (Runner.trace final)).
Proof.
  intros final. subst final. unfold Runner.main.
  apply (run_loop_invariant get_completion get_formatted_prompt extract_code pset
           (λ st, length (Runner.writes_of (Runner.trace st))
                  = length (Runner.calls_of (Runner.trace st))
                  ∧ length (Runner.results st)
                    + length (Runner.failures_of (Runner.trace st))
                    = length (Runner.load_existing_jsonl file0)
                      + length (Runner.calls_of (Runner.trace st)))).
  - intros st item [Hw Hr].
    destruct (loop_body_counts
                (Runner.exising_task_ids (Runner.load_existing_jsonl file0))
                st item) as [Hw' Hr'].
    lia.
  - simpl. lia.
Qed.

(** X6.  The skip set is the one computed at startup: a task id that is not
    in the loaded file is sent to the provider as many times as it occurs in
    the dataset, whatever the run has appended in between. *)
Theorem repeated_task_called_each_time file0 p0 dataset task_id :
  (∀ t problem, (t, problem) ∈ dataset →
      t ∉ Runner.exising_task_ids (Runner.load_existing_jsonl file0) →
      ∃ prompt, get_formatted_prompt problem = Returned prompt) →
  task_id ∉ Runner.exising_task_ids (Runner.load_existing_jsonl file0) →
  length (filter (λ t, t = task_id)
            (Runner.calls_of (Runner.trace (main file0 p0 dataset).1)).*1)
  = length (filter (λ t, t = task_id) dataset.*1).
Proof.
  intros Hfmt Hin. unfold Runner.main.
  destruct (run_loop_attempts get_completion get_formatted_prompt extract_code
              pset _ dataset Hfmt
              (Runner.State (Runner.load_existing_jsonl file0) file0 p0 None []))
    as [_ ->].
  simpl.
  rewrite (attempts_task_ids get_formatted_prompt _ dataset Hfmt).
  by rewrite filter_eq_fst_filter.
Qed.

(** X7.  The record appended for a task that succeeded has the task id of
    the dataset under ["task_id"] and the prompt that was sent under
    ["actual_prompt"]; every other field of the problem is copied as it is,
    except ["completion"] and ["raw_completion"], and the record has no
    field besides these. *)
Theorem appended_record_fields existing st task_id problem prompt p' completion raw :
  task_id ∉ existing →
  get_formatted_prompt problem = Returned prompt →
  attempt (Runner.provider st) prompt = (p', Returned (completion, raw)) →
  ∃ res : record,
    last (Runner.results (loop_body existing st (task_id, problem)).1) = Some res
    ∧ res !! "task_id" = Some task_id
    ∧ res !! "actual_prompt" = Some (VStr prompt)
    ∧ (∀ k : string,
          k ∉ ["task_id"; "completion"; "raw_completion"; "actual_prompt"] →
          res !! k = problem !! k)
    ∧ dom res
      = dom problem
          ∪ list_to_set ["task_id"; "completion"; "raw_completion"; "actual_prompt"].
Proof.
  intros Hin Hp Ha.
  rewrite (loop_body_returned get_completion get_formatted_prompt extract_code
             pset _ _ _ _ _ _ _ _ Hin Hp Ha). simpl.
  eexists. split_and!.
  - apply last_snoc.
  - apply make_result_task_id.
  - apply make_result_actual_prompt.
  - intros k Hk. by apply make_result_problem_field.
  - unfold Runner.make_result. rewrite !dom_insert_L. apply set_eq. intros k.
    set_unfold. tauto.
Qed.

(** X8.  An iteration that is not skipped adds the task id to the ids found
    in the list in memory when the attempt succeeds, and leaves them as they
    were when it fails: a failed task is not skipped by the next run on its
    account. *)
Theorem skip_set_after_iteration existing st task_id problem prompt :
  task_id ∉ existing →
  get_formatted_prompt problem = Returned prompt →
  Runner.exising_task_ids
    (Runner.results (loop_body existing st (task_id, problem)).1)
  = match (attempt (Runner.provider st) prompt).2 with
    | Returned _ => Runner.exising_task_ids (Runner.results st) ∪ {[task_id]}
    | Raised _ => Runner.exising_task_ids (Runner.results st)
    end.
Proof.
  intros Hin Hp.
  destruct (attempt (Runner.provider st) prompt) as [p' [[c raw]|e]] eqn:Ha.
  - rewrite (loop_body_returned get_completion get_formatted_prompt extract_code
               pset _ _ _ _ _ _ _ _ Hin Hp Ha). simpl.
    apply exising_task_ids_snoc_result.
  - by rewrite (loop_body_raised get_completion get_formatted_prompt extract_code
                  pset _ _ _ _ _ _ _ Hin Hp Ha).
Qed.

(** X9.  However the run ends, the list in memory is the loaded records
    followed by the records of this run, each with its task id, and these
    task ids follow the order of the dataset: they are a subsequence of the
    ids of the tasks that are not skipped. *)
Theorem appended_in_dataset_order file0 p0 dataset :
  ∃ (new : list record) (ids : list value),
    Runner.results (main file0 p0 dataset).1
    = Runner.load_existing_jsonl file0 ++ new
    ∧ (λ r : record, r !! "task_id") <$> new = Some <$> ids
    ∧ ids `sublist_of`
        (filter (λ item : value * record,
                   item.1 ∉ Runner.exising_task_ids (Runner.load_existing_jsonl file0))
           dataset).*1.
Proof. unfold Runner.main. apply run_loop_appends_in_order. Qed.

End HarnessFurtherProperties.

(** * Further properties of the output path *)

Lemma endswith_spec (s suffix : string) :
  Py.endswith s suffix = true ↔ ∃ pre, s = pre +:+ suffix.
Proof.
  split.
  - induction s as [|c s IH]; simpl.
    + case_bool_decide as Heq; [|done]. intros _. exists "". by subst.
    + case_bool_decide as Heq.
      * intros _. exists "". by subst.
      * intros [pre ->]%IH. exists (String c pre). by rewrite string_app_cons.
  - intros [pre ->]. apply endswith_app.
Qed.

Lemma endswith_trans (s t u : string) :
  Py.endswith s t = true → Py.endswith t u = true → Py.endswith s u = true.
Proof.
  intros [p ->]%endswith_spec [q ->]%endswith_spec.
  rewrite <- string_app_assoc. apply endswith_app.
Qed.

(** Whatever is joined so far, the joined path ends with the component. *)
Lemma endswith_join_step (path b : string) :
  Py.endswith (Py.join_step path b) b = true.
Proof.
  unfold Py.join_step. destruct (Py.startswith b "/").
  - apply (endswith_app "" b).
  - destruct (_ || _); [apply endswith_app|].
    rewrite <- string_app_assoc. apply endswith_app.
Qed.

(** Characters of the set at the right end do not count for [rstrip]. *)
Lemma rstrip_app_stripped (s t chars : string) :
  Py.rstrip t chars = "" → Py.rstrip (s +:+ t) chars = Py.rstrip s chars.
Proof.
  intros Ht. induction s as [|c s IH]; [done|].
  rewrite string_app_cons. simpl. by rewrite IH.
Qed.

Lemma rstrip_keeps_last (pre : string) (c : Ascii.ascii) (chars : string) :
  Py.occurs_in c chars = false →
  Py.rstrip (pre +:+ String c "") chars = pre +:+ String c "".
Proof.
  intros Hc. induction pre as [|x pre IH].
  - rewrite string_app_nil_l. simpl. by rewrite Hc.
  - rewrite string_app_cons. simpl. rewrite IH.
    destruct pre; by rewrite ?string_app_nil_l, ?string_app_cons.
Qed.

Lemma rstrip_fixed (s chars : string) :
  Py.rstrip s chars = s ↔
  s = "" ∨ ∃ pre c, s = pre +:+ String c "" ∧ Py.occurs_in c chars = false.
Proof.
  split.
  - induction s as [|x s IH]; intros Hfix; [by left|]. right. simpl in Hfix.
    destruct (Py.rstrip s chars) as [|y t] eqn:Hs.
    + destruct (Py.occurs_in x chars) eqn:Hx; [done|].
      injection Hfix as <-. by exists "", x.
    + injection Hfix as Ht.
      destruct (IH Ht) as [Hnil|(pre & c & -> & Hc)]; [congruence|].
      exists (String x pre), c. by rewrite string_app_cons.
  - intros [->|(pre & c & -> & Hc)]; [done|]. by apply rstrip_keeps_last.
Qed.

Section OutputPathFurtherProperties.

Variable get_root_dir : string.
Variable prep_for_file_path : string → string.
Variable OUTPUT_FILE_NAME_format :
  string → string → string → string → string → string → string.
Variable str_float : float → string.

Local Abbreviation output_dir := (Runner.output_dir get_root_dir prep_for_file_path).
Local Abbreviation base_file_name :=
  (Runner.base_file_name prep_for_file_path OUTPUT_FILE_NAME_format str_float).
Local Abbreviation output_file_name :=
  (Runner.output_file_name prep_for_file_path OUTPUT_FILE_NAME_format str_float).
Local Abbreviation get_output_path :=
  (Runner.get_output_path get_root_dir prep_for_file_path OUTPUT_FILE_NAME_format
     str_float).

(** X10.  Calling [get_output_path] a second time gives the same path and
    creates nothing: after the first call the directory exists, and what
    existed before still does. *)
Theorem get_output_path_twice args version paths :
  let out := get_output_path args version paths in
  get_output_path args version out.2 = out
  ∧ output_dir args ∈ out.2
  ∧ paths ⊆ out.2.
Proof.
  intros out. subst out. unfold Runner.get_output_path, Py.os_makedirs.
  generalize (output_dir args). intros dir.
  generalize (Py.str_or (argparse.output_file_name args)
                (output_file_name args version)). intros name.
  cbn [fst snd]. destruct (decide (dir ∈ paths)) as [Hdir|Hdir].
  - rewrite (bool_decide_eq_true_2 (dir ∈ paths)) by done.
    rewrite bool_decide_eq_true_2 by done. split_and!; [done|done|reflexivity].
  - assert (dir ∈ ({[dir]} ∪ paths : gset string)) as Hnew.
    { apply elem_of_union_l. by apply elem_of_singleton. }
    rewrite (bool_decide_eq_false_2 (dir ∈ paths)) by done.
    rewrite bool_decide_eq_true_2 by done.
    split_and!; [done|done|apply union_subseteq_r].
Qed.

(** X11.  Whatever the root, the sanitiser and the template are, the path
    ends with the file name that was chosen; so without a name from the user
    it ends with [".jsonl"], after ["_py-interpreter"] when the flag is
    set. *)
Theorem output_path_ends_with_file_name args version paths :
  let path := (get_output_path args version paths).1 in
  Py.endswith path
    (Py.str_or (argparse.output_file_name args) (output_file_name args version))
  = true
  ∧ (argparse.output_file_name args = None
     ∨ argparse.output_file_name args = Some "" →
     Py.endswith path
       ((if argparse.py_interpreter args then "_py-interpreter" else "") +:+ ".jsonl")
     = true).
Proof.
  intros path. subst path. unfold Runner.get_output_path, Py.os_path_join. simpl.
  split; [apply endswith_join_step|].
  intros Hnone. eapply endswith_trans; [apply endswith_join_step|].
  assert (Py.str_or (argparse.output_file_name args) (output_file_name args version)
          = output_file_name args version) as ->.
  { by destruct Hnone as [-> | ->]. }
  unfold Runner.output_file_name, Runner.py_interpreter_segment.
  apply endswith_app.
Qed.

(** X12.  When the filled template is a stem followed by [".jsonl"], the
    derived file name is not the stem with the segment and the extension: the
    stem loses the characters of [. j s o n l] at its right end first.  It is
    kept whole exactly when it is empty or its last character is none of
    them. *)
Theorem output_file_name_strips_stem args version stem :
  base_file_name args version = stem +:+ ".jsonl" →
  output_file_name args version
  = Py.rstrip stem ".jsonl"
      +:+ (if argparse.py_interpreter args then "_py-interpreter" else "")
      +:+ ".jsonl"
  ∧ (Py.rstrip stem ".jsonl" = stem ↔
     stem = ""
     ∨ ∃ pre c, stem = pre +:+ String c "" ∧ Py.occurs_in c ".jsonl" = false).
Proof.
  intros Hbase. split; [|apply rstrip_fixed].
  unfold Runner.output_file_name, Runner.py_interpreter_segment.
  by rewrite Hbase, rstrip_app_stripped.
Qed.

(** X13.  With a file name from the user, the path depends on the provider,
    the problem set, the model and that name only: runs that differ in
    temperature, quantization, version, streaming or the interpreter flag
    get the same path. *)
Theorem user_file_name_ignores_settings args args' version version' paths paths' s :
  argparse.output_file_name args = Some s →
  argparse.output_file_name args' = Some s →
  s ≠ "" →
  argparse.provider args = argparse.provider args' →
  argparse.pset args = argparse.pset args' →
  argparse.model args = argparse.model args' →
  (get_output_path args version paths).1 = (get_output_path args' version' paths').1.
Proof.
  intros Hs Hs' Hne Hprovider Hpset Hmodel.
  unfold Runner.get_output_path, Runner.output_dir. simpl.
  rewrite Hs, Hs', Hprovider, Hpset, Hmodel. simpl.
  by rewrite bool_decide_eq_false_2.
Qed.

End OutputPathFurtherProperties.

(** * Further properties of the local Wizard model *)

Section WizardModelFurtherProperties.

Context {Quantization Kwargs Tokenizer Weights Tensor : Type}.
Context `{EqDecision Quantization}.
Variable Quantization_float16 : Quantization.
Variable quantization_to_kwargs : Quantization → Kwargs.
Variable LlamaTokenizer_from_pretrained : string → string → Kwargs → Tokenizer.
Variable LlamaForCausalLM_from_pretrained :
  string → WizardModel.torch_dtype → string → Weights.
Variable tokenizer_eos_token_id tokenizer_pad_token_id : Tokenizer → option Z.
Variable tokenize : Tokenizer → string → string → Tensor.
Variable generate : Weights → Tensor → transformers.GenerationConfig → Z → Tensor.
Variable tensor_to : Tensor → string → Tensor.
Variable decode : Tokenizer → Tensor → string.

Local Abbreviation __init__ :=
  (WizardModel.__init__ Quantization_float16 quantization_to_kwargs
     LlamaTokenizer_from_pretrained LlamaForCausalLM_from_pretrained).
Local Abbreviation get_completion :=
  (WizardModel.get_completion tokenizer_eos_token_id tokenizer_pad_token_id
     tokenize generate tensor_to decode).

(** X14.  What a completion depends on.  Two objects built on the same
    machine for the same model name and temperature have the same device,
    tokenizer, weights, generation configuration and [max_new_tokens] as soon
    as their quantizations give the tokenizer the same keyword arguments and
    are both, or neither, [float16], and their [max_new_tokens] arguments are
    equal after the default is applied.  [get_completion] reads nothing else
    of the object, so it hands the runtime the same calls for both: the
    streaming flag plays no part, and the quantization none beyond that. *)
Theorem completion_depends_on env model_name temperature quantization1 quantization2
    stream1 stream2 max_new_tokens1 max_new_tokens2 prompt :
  quantization_to_kwargs quantization1 = quantization_to_kwargs quantization2 →
  (quantization1 = Quantization_float16 ↔ quantization2 = Quantization_float16) →
  Py.int_or max_new_tokens1 384 = Py.int_or max_new_tokens2 384 →
  let self1 :=
    (__init__ env model_name quantization1 temperature stream1 max_new_tokens1).1 in
  let self2 :=
    (__init__ env model_name quantization2 temperature stream2 max_new_tokens2).1 in
  WizardModel.device self1 = WizardModel.device self2
  ∧ WizardModel.tokenizer self1 = WizardModel.tokenizer self2
  ∧ WizardModel.model self1 = WizardModel.model self2
  ∧ WizardModel.generation_config tokenizer_eos_token_id tokenizer_pad_token_id self1
    = WizardModel.generation_config tokenizer_eos_token_id tokenizer_pad_token_id self2
  ∧ WizardModel.max_new_tokens self1 = WizardModel.max_new_tokens self2
  ∧ get_completion self1 prompt = get_completion self2 prompt.
Proof.
  intros Hkwargs Hf16 Hmax self1 self2. subst self1 self2.
  unfold WizardModel.get_completion, WizardModel.generation_config,
    WizardModel.__init__. simpl.
  change WizardModel.MAX_NEW_TOKENS with 384%Z. rewrite Hkwargs, Hmax.
  assert (bool_decide (quantization1 = Quantization_float16)
          = bool_decide (quantization2 = Quantization_float16)) as ->.
  { by apply bool_decide_ext. }
  done.
Qed.


End WizardModelFurtherProperties.

(** * The further properties on the small run *)

Lemma prompt_failure_keeps_earlier_work_witness :
  Runner.main Scenario.get_completion Scenario.get_formatted_prompt
    Scenario.extract_code "human-eval" None 0
    ([(VStr "t1", Scenario.problem "p1")]
       ++ (VStr "t3", ∅) :: [(VStr "t2", Scenario.problem "p2")])
  = ((Runner.main Scenario.get_completion Scenario.get_formatted_prompt
        Scenario.extract_code "human-eval" None 0
        [(VStr "t1", Scenario.problem "p1")]).1,
     Runner.Uncaught (Exception "KeyError: 'prompt'")).
Proof.
  apply (prompt_failure_keeps_earlier_work Scenario.get_completion
           Scenario.get_formatted_prompt Scenario.extract_code "human-eval"
           None 0 [(VStr "t1", Scenario.problem "p1")]
           [(VStr "t2", Scenario.problem "p2")] (VStr "t3") ∅).
  - reflexivity.
  - intros (r & Hr & _)%elem_of_exising_task_ids. by apply elem_of_nil in Hr.
  - reflexivity.
Defined.

Lemma all_skipped_run_changes_nothing_witness :
  Runner.main Scenario.get_completion Scenario.get_formatted_prompt
    Scenario.extract_code "human-eval" Scenario.edited_file 0
    [(VStr "t1", Scenario.problem "p1")]
  = (Runner.State [Scenario.note; Scenario.done_t1] Scenario.edited_file 0 None
       [Runner.Skipped (VStr "t1")],
     Runner.Normal).
Proof.
  apply (all_skipped_run_changes_nothing Scenario.get_completion
           Scenario.get_formatted_prompt Scenario.extract_code "human-eval"
           Scenario.edited_file 0 [(VStr "t1", Scenario.problem "p1")]).
  apply Forall_cons_2; [|apply Forall_nil_2]. simpl.
  apply elem_of_exising_task_ids. exists Scenario.done_t1. split.
  - right. left.
  - reflexivity.
Defined.

Lemma second_run_calls_failed_only_witness :
  ∃ e, Runner.Failed (VStr "t2") e
       ∈ Runner.trace
           (Runner.main Scenario.get_completion Scenario.get_formatted_prompt
              Scenario.extract_code "human-eval" None 0 Scenario.dataset).1.
Proof.
  apply (second_run_calls_failed_only Scenario.get_completion
           Scenario.get_formatted_prompt Scenario.extract_code "human-eval"
           None 0 Scenario.dataset 2 (VStr "t2") "p2").
  - reflexivity.
  - apply (bool_decide_unpack _). vm_compute. exact I.
Defined.

Lemma clean_rerun_changes_nothing_witness :
  Runner.main Scenario.get_completion Scenario.get_formatted_prompt
    Scenario.extract_code "human-eval" (Some [Scenario.done_t1]) 7
    [(VStr "t1", Scenario.problem "p1")]
  = (Runner.State [Scenario.done_t1] (Some [Scenario.done_t1]) 7 None
       [Runner.Skipped (VStr "t1")],
     Runner.Normal).
Proof.
  apply (clean_rerun_changes_nothing Scenario.get_completion
           Scenario.get_formatted_prompt Scenario.extract_code "human-eval"
           None 0 [(VStr "t1", Scenario.problem "p1")] 7); reflexivity.
Defined.

Lemma repeated_task_called_each_time_witness :
  length
    (filter (λ t, t = VStr "t1")
       (Runner.calls_of
          (Runner.trace
             (Runner.main Scenario.get_completion Scenario.get_formatted_prompt
                Scenario.extract_code "human-eval" None 0
                [(VStr "t1", Scenario.problem "p1");
                 (VStr "t1", Scenario.problem "p1")]).1)).*1)
  = 2.
Proof.
  rewrite (repeated_task_called_each_time Scenario.get_completion
             Scenario.get_formatted_prompt Scenario.extract_code "human-eval"
             None 0 [(VStr "t1", Scenario.problem "p1");
                     (VStr "t1", Scenario.problem "p1")] (VStr "t1")).
  - reflexivity.
  - intros t problem Hel _.
    apply elem_of_cons in Hel as [[= -> ->]|Hel]; [by eexists|].
    apply elem_of_cons in Hel as [[= -> ->]|Hel]; [by eexists|].
    by apply elem_of_nil in Hel.
  - intros (r & Hr & _)%elem_of_exising_task_ids. by apply elem_of_nil in Hr.
Defined.

Lemma appended_record_fields_witness :
  ∃ res : record,
    last (Runner.results
            (Runner.loop_body Scenario.get_completion Scenario.get_formatted_prompt
               Scenario.extract_code "human-eval" ∅ Scenario.start
               (VStr "t1", Scenario.problem "p1")).1) = Some res
    ∧ res !! "task_id" = Some (VStr "t1")
    ∧ res !! "actual_prompt" = Some (VStr "p1")
    ∧ (∀ k : string,
          k ∉ ["task_id"; "completion"; "raw_completion"; "actual_prompt"] →
          res !! k = Scenario.problem "p1" !! k)
    ∧ dom res
      = dom (Scenario.problem "p1")
          ∪ list_to_set ["task_id"; "completion"; "raw_completion"; "actual_prompt"].
Proof.
  apply (appended_record_fields Scenario.get_completion
           Scenario.get_formatted_prompt Scenario.extract_code "human-eval"
           ∅ Scenario.start (VStr "t1") (Scenario.problem "p1") "p1" 1
           "print(1)" "```print(1)```").
  - apply not_elem_of_empty.
  - reflexivity.
  - reflexivity.
Defined.

Lemma skip_set_after_iteration_witness :
  Runner.exising_task_ids
    (Runner.results
       (Runner.loop_body Scenario.get_completion Scenario.get_formatted_prompt
          Scenario.extract_code "human-eval" ∅ Scenario.start
          (VStr "t2", Scenario.problem "p2")).1)
  = Runner.exising_task_ids (Runner.results Scenario.start).
Proof.
  apply (skip_set_after_iteration Scenario.get_completion
           Scenario.get_formatted_prompt Scenario.extract_code "human-eval"
           ∅ Scenario.start (VStr "t2") (Scenario.problem "p2") "p2").
  - apply not_elem_of_empty.
  - reflexivity.
Defined.

Lemma output_file_name_strips_stem_witness :
  Runner.output_file_name Scenario.prep_for_file_path
    Scenario.OUTPUT_FILE_NAME_format Scenario.str_float
    (Scenario.args false None) "v1.json"
  = "openai_human-eval__model_eq_gpt-4__temperature_eq_0.7__quantization_eq_float16__version_eq_v1.jsonl".
Proof.
  destruct (output_file_name_strips_stem Scenario.prep_for_file_path
              Scenario.OUTPUT_FILE_NAME_format Scenario.str_float
              (Scenario.args false None) "v1.json"
              "openai_human-eval__model_eq_gpt-4__temperature_eq_0.7__quantization_eq_float16__version_eq_v1.json")
    as [Hname _]; [reflexivity|].
  rewrite Hname. reflexivity.
Defined.

Lemma user_file_name_ignores_settings_witness :
  (Runner.get_output_path Scenario.get_root_dir Scenario.prep_for_file_path
     Scenario.OUTPUT_FILE_NAME_format Scenario.str_float
     (Scenario.args false (Some "mine.jsonl")) "0.1.0" ∅).1
  = (Runner.get_output_path Scenario.get_root_dir Scenario.prep_for_file_path
       Scenario.OUTPUT_FILE_NAME_format Scenario.str_float
       (Scenario.args true (Some "mine.jsonl")) "0.2.0" ∅).1.
Proof.
  apply (user_file_name_ignores_settings Scenario.get_root_dir
           Scenario.prep_for_file_path Scenario.OUTPUT_FILE_NAME_format
           Scenario.str_float (Scenario.args false (Some "mine.jsonl"))
           (Scenario.args true (Some "mine.jsonl")) "0.1.0" "0.2.0" ∅ ∅
           "mine.jsonl"); try reflexivity.
  discriminate.
Defined.

Lemma completion_depends_on_witness :
  let build := λ quantization stream max_new_tokens,
    (WizardModel.__init__ WizardScenario.Quantization_float16
       WizardScenario.quantization_to_kwargs
       WizardScenario.LlamaTokenizer_from_pretrained
       WizardScenario.LlamaForCausalLM_from_pretrained
       WizardScenario.env "WizardCoder" quantization (QArith_base.Qmake 7 10)
       stream max_new_tokens).1 in
  WizardModel.model (build "8bit" true None)
  = WizardModel.model (build "4bit" false (Some 0%Z))
  ∧ WizardModel.max_new_tokens (build "8bit" true None)
    = WizardModel.max_new_tokens (build "4bit" false (Some 0%Z)).
Proof.
  destruct (completion_depends_on WizardScenario.Quantization_float16
              WizardScenario.quantization_to_kwargs
              WizardScenario.LlamaTokenizer_from_pretrained
              WizardScenario.LlamaForCausalLM_from_pretrained
              WizardScenario.tokenizer_token_id WizardScenario.tokenizer_token_id
              WizardScenario.tokenize WizardScenario.generate
              WizardScenario.tensor_to WizardScenario.decode
              WizardScenario.env "WizardCoder" (QArith_base.Qmake 7 10)
              "8bit" "4bit" true false None (Some 0%Z) "def f():")
    as (_ & _ & Hmodel & _ & Hmax & _).
  - reflexivity.
  - split; discriminate.
  - reflexivity.
  - split; [exact Hmodel|exact Hmax].
Defined.
